(** * refresh_db.py: the mock database fixture builder

    [apps/mock_db/refresh_db.py] removes [test.db] when it exists, opens a
    new SQLite file, creates the tables [users], [products] and [orders],
    bulk-inserts fixed rows into each and commits.

    The script is straight-line code over two libraries: [os]/[pathlib]
    for the file and [sqlite3] for the storage.  The development has three
    layers:
    - the storage engine restricted to the SQL the script issues
      (CREATE TABLE with column constraints, INSERT with a column list);
    - the Python side: the file at [DB_PATH], the connection with the
      implicit transaction of the [sqlite3] module, [print], exceptions;
    - [create_database] itself, statement by statement. *)

From Stdlib Require Import ZArith QArith Qabs List String Ascii Bool Lia.
From Stdlib Require Import DecimalString.
From Stdlib Require Import PrimFloat SpecFloat FloatOps Uint63.
Import ListNotations.
Open Scope Z_scope.
Open Scope string_scope.
Open Scope list_scope.

(** * Values *)

(** What Python binds to a [?] placeholder and what a cell holds: [None]
    is NULL, [int] is INTEGER, [float] is REAL (an IEEE-754 binary64, here
    a primitive float), [str] is TEXT.

    A bound value is stored in the storage class it is bound with.  That is
    what SQLite does whenever the class already suits the column's
    affinity, which is the case at every call of the script.  The
    conversions between classes that an affinity brings (an [int] bound to
    a REAL or TEXT column, a [float] without fraction bound to an INTEGER
    column or to the key, a text that reads as a number bound to a numeric
    column) are not modelled; within the class REAL, a REAL column gives a
    zero back as [+0.0], see [stored_as]. *)
Inductive value : Type :=
| VNull
| VInt (n : Z)
| VReal (x : float)
| VText (s : string).

(** Equality as a UNIQUE index sees it, within one storage class. *)
Definition value_eqb (a b : value) : bool :=
  match a, b with
  | VNull, VNull => true
  | VInt m, VInt n => Z.eqb m n
  | VReal x, VReal y => PrimFloat.eqb x y
  | VText s, VText t => String.eqb s t
  | _, _ => false
  end.

Definition is_null (v : value) : bool :=
  match v with VNull => true | _ => false end.

(** ** Python float literals and exact values *)

(** A decimal literal as it is written: [digits] scaled by [10^-scale], so
    [999.99] is [{| digits := 99999; scale := 2 |}]. *)
Record decimal : Type := { digits : Z; scale : nat }.

Definition decimal_value (d : decimal) : Q :=
  Qmake (digits d) (Z.to_pos (10 ^ Z.of_nat (scale d))).

(** The float a Python literal denotes: the binary64 nearest to the written
    decimal, with the sign in front of it.  While [|digits|] and
    [10^scale] are below [2^53], as for the literals of the script, both
    are exact floats and IEEE division rounds their quotient correctly. *)
Definition py_float (d : decimal) : float :=
  let magnitude :=
    PrimFloat.div
      (PrimFloat.of_uint63 (Uint63.of_Z (Z.abs (digits d))))
      (PrimFloat.of_uint63 (Uint63.of_Z (10 ^ Z.of_nat (scale d)))) in
  if (digits d <? 0)%Z then PrimFloat.opp magnitude else magnitude.

(** The rational number a finite float is. *)
Definition float_exact (x : float) : option Q :=
  match Prim2SF x with
  | S754_zero _ => Some (0 # 1)
  | S754_finite s m e =>
      let n := if s then Z.neg m else Z.pos m in
      Some (if (0 <=? e)%Z then Qmake (n * 2 ^ e) 1
            else Qmake n (Z.to_pos (2 ^ (- e))))
  | _ => None
  end.

(** * The storage engine *)

(** ** Names *)

(** SQL compares the names of tables and columns without regard to the
    case of the ASCII letters. *)
Definition lower_ascii (c : ascii) : ascii :=
  let n := nat_of_ascii c in
  if (65 <=? n)%nat && (n <=? 90)%nat then ascii_of_nat (n + 32) else c.

Fixpoint lower (s : string) : string :=
  match s with
  | EmptyString => EmptyString
  | String c rest => String (lower_ascii c) (lower rest)
  end.

Definition same_name (a b : string) : bool :=
  String.eqb (lower a) (lower b).

(** The names under which every table with a rowid offers it. *)
Definition is_rowid_alias (name : string) : bool :=
  same_name name "rowid" || same_name name "oid" || same_name name "_rowid_".

(** ** Schemas *)

Inductive default_expr : Type :=
| Literal (v : value)
| CURRENT_TIMESTAMP.

Inductive col_constraint : Type :=
| PRIMARY_KEY_AUTOINCREMENT
| NOT_NULL
| UNIQUE
| DEFAULT (d : default_expr).

Record column : Type :=
  { col_name : string;
    col_type : string;
    col_constraints : list col_constraint }.

(** [FOREIGN KEY (fk_column) REFERENCES fk_table(fk_parent)]. *)
Record foreign_key : Type :=
  { fk_column : string;
    fk_table : string;
    fk_parent : string }.

Record table_schema : Type :=
  { tbl_name : string;
    tbl_columns : list column;
    tbl_foreign_keys : list foreign_key }.

Definition is_primary_key (c : col_constraint) : bool :=
  match c with PRIMARY_KEY_AUTOINCREMENT => true | _ => false end.
Definition is_not_null (c : col_constraint) : bool :=
  match c with NOT_NULL => true | _ => false end.
Definition is_unique (c : col_constraint) : bool :=
  match c with UNIQUE => true | _ => false end.

Definition col_primary_key (c : column) : bool :=
  existsb is_primary_key (col_constraints c).
Definition col_not_null (c : column) : bool :=
  existsb is_not_null (col_constraints c).
Definition col_unique (c : column) : bool :=
  existsb is_unique (col_constraints c).

Fixpoint first_default (cs : list col_constraint) : option default_expr :=
  match cs with
  | [] => None
  | DEFAULT d :: _ => Some d
  | _ :: cs' => first_default cs'
  end.

Definition col_default (c : column) : option default_expr :=
  first_default (col_constraints c).

(** Column affinity, from the declared type, by SQLite's five rules in
    their order; the case of the letters of the type does not matter. *)
Inductive affinity : Type :=
| AffInteger | AffText | AffBlob | AffReal | AffNumeric.

Definition mentions (sub s : string) : bool :=
  match String.index 0 sub s with Some _ => true | None => false end.

Definition affinity_of (decltype : string) : affinity :=
  let d := lower decltype in
  if mentions "int" d then AffInteger
  else if mentions "char" d || mentions "clob" d || mentions "text" d
  then AffText
  else if mentions "blob" d || String.eqb d EmptyString then AffBlob
  else if mentions "real" d || mentions "floa" d || mentions "doub" d
  then AffReal
  else AffNumeric.

(** What column [c] gives back for a value of its own class: a REAL column
    keeps a float without fraction as an integer and reads it as a float
    again, which returns every float as it was except that a negative zero
    comes back positive. *)
Definition real_read (x : float) : float :=
  if PrimFloat.eqb x PrimFloat.zero then PrimFloat.zero else x.

Definition stored_as (c : column) (v : value) : value :=
  match affinity_of (col_type c) with
  | AffReal =>
      match v with
      | VReal x => VReal (real_read x)
      | _ => v
      end
  | _ => v
  end.

(** ** Tables and databases *)

(** A stored row: its rowid and one cell per column of the schema, in
    column order.  The INTEGER PRIMARY KEY column is an alias of the rowid,
    so its cell is [VInt rowid]. *)
Record row : Type := { rowid : Z; cells : list value }.

(** [tbl_seq] is the table's entry in the engine's AUTOINCREMENT
    bookkeeping (its own table [sqlite_sequence]): the largest rowid the
    table has ever held, [0] for a table that never held a row; it is kept
    for tables with an AUTOINCREMENT key only. *)
Record table : Type :=
  { tbl_schema : table_schema;
    tbl_rows : list row;
    tbl_seq : Z }.

(** The tables of a database file, in creation order. *)
Definition database : Type := list table.

Definition table_named (name : string) (t : table) : bool :=
  String.eqb (tbl_name (tbl_schema t)) name.

(** The table stored under exactly [name]. *)
Definition find_table (db : database) (name : string) : option table :=
  find (table_named name) db.

(** The table a statement means by [name]: the one stored under that name,
    whatever the case of its letters. *)
Definition lookup_table (db : database) (name : string) : option table :=
  match find_table db name with
  | Some t => Some t
  | None => find (fun t => same_name (tbl_name (tbl_schema t)) name) db
  end.

Fixpoint replace_table (db : database) (t' : table) : database :=
  match db with
  | [] => []
  | t :: rest =>
      if table_named (tbl_name (tbl_schema t')) t then t' :: rest
      else t :: replace_table rest t'
  end.

Fixpoint column_index (cols : list column) (name : string) : option nat :=
  match cols with
  | [] => None
  | c :: rest =>
      if same_name (col_name c) name then Some 0%nat
      else option_map S (column_index rest name)
  end.

(** The cell of row [r] under column [name]; a name that no column bears
    and that is an alias of the rowid reads the rowid. *)
Definition cell (s : table_schema) (name : string) (r : row) : option value :=
  match column_index (tbl_columns s) name with
  | Some i => nth_error (cells r) i
  | None => if is_rowid_alias name then Some (VInt (rowid r)) else None
  end.

(** ** Exceptions *)

(** The Python exceptions the two libraries raise. *)
Inductive exn : Type :=
| OSError (msg : string)
| OperationalError (msg : string)
| IntegrityError (msg : string)
| ProgrammingError (msg : string)
| DatabaseError (msg : string)
| OverflowError (msg : string).

Inductive result (A : Type) : Type :=
| Ok (a : A)
| Err (e : exn).
Arguments Ok {A} a.
Arguments Err {A} e.

Definition and_then {A B : Type} (r : result A) (k : A -> result B)
  : result B :=
  match r with
  | Ok a => k a
  | Err e => Err e
  end.

Notation "'do' x <~ r ; k" := (and_then r (fun x => k))
  (at level 10, x name, r at level 100, k at level 200).

(** The module's complaint when a statement with [uses] placeholders gets
    [supplied] parameters. *)
Definition decimal_text (n : nat) : string :=
  NilEmpty.string_of_uint (Nat.to_uint n).

Definition wrong_bindings (uses supplied : nat) : exn :=
  ProgrammingError
    ("Incorrect number of bindings supplied. The current statement uses "
       ++ decimal_text uses ++ ", and there are " ++ decimal_text supplied
       ++ " supplied.").

(** ** CREATE TABLE *)

Definition create_table (db : database) (s : table_schema) : result database :=
  match lookup_table db (tbl_name s) with
  | Some _ =>
      Err (OperationalError ("table " ++ tbl_name s ++ " already exists"))
  | None => Ok (db ++ [{| tbl_schema := s; tbl_rows := []; tbl_seq := 0 |}])
  end.

(** ** INSERT INTO table (columns) VALUES (?, ..., ?) *)

(** The value bound to column [name] by the statement's column list: that
    of the first entry of the list that names the column. *)
Fixpoint binding (name : string) (cols : list string) (vals : list value)
  : option value :=
  match cols, vals with
  | c :: cols', v :: vals' =>
      if same_name c name then Some v else binding name cols' vals'
  | _, _ => None
  end.

(** The value of a column the statement does not name; [now] is what
    CURRENT_TIMESTAMP yields while the statement runs. *)
Definition default_value (now : string) (c : column) : value :=
  match col_default c with
  | Some (Literal v) => v
  | Some CURRENT_TIMESTAMP => VText now
  | None => VNull
  end.

Definition new_cells (now : string) (s : table_schema)
  (cols : list string) (vals : list value) : list value :=
  map (fun c => stored_as c
                  match binding (col_name c) cols vals with
                  | Some v => v
                  | None => default_value now c
                  end)
      (tbl_columns s).

(** The largest rowid among the rows, [0] where there is no row. *)
Definition max_rowid (rows : list row) : Z :=
  match rows with
  | [] => 0
  | r :: rest => fold_right (fun r' m => Z.max (rowid r') m) (rowid r) rest
  end.

Definition int64_max : Z := 2 ^ 63 - 1.

Definition primary_key_index (s : table_schema) : option nat :=
  (fix go (cols : list column) (i : nat) : option nat :=
     match cols with
     | [] => None
     | c :: rest => if col_primary_key c then Some i else go rest (S i)
     end) (tbl_columns s) 0%nat.

Definition autoincrement (s : table_schema) : bool :=
  existsb col_primary_key (tbl_columns s).

(** The largest rowid that counts for the next one: the largest the table
    holds and, under AUTOINCREMENT, the largest it has ever held. *)
Definition top_rowid (t : table) : Z :=
  if autoincrement (tbl_schema t)
  then Z.max (max_rowid (tbl_rows t)) (tbl_seq t)
  else max_rowid (tbl_rows t).

(** The rowid of a row that brings none: one more than [top_rowid], and
    no rowid at all once that is the largest 64-bit integer (without
    AUTOINCREMENT the engine would then try unused rowids at random, which
    is outside this model). *)
Definition next_rowid (t : table) : result Z :=
  if (int64_max <=? top_rowid t)%Z
  then Err (OperationalError "database or disk is full")
  else Ok (top_rowid t + 1).

(** The table's counter once a row with rowid [id] is in. *)
Definition next_seq (t : table) (id : Z) : Z :=
  if autoincrement (tbl_schema t) then Z.max (tbl_seq t) id else tbl_seq t.

Fixpoint set_nth (i : nat) (v : value) (l : list value) : list value :=
  match l, i with
  | [], _ => []
  | _ :: rest, O => v :: rest
  | x :: rest, S j => x :: set_nth j v rest
  end.

(** Does [name], in the column list of an INSERT into a table of schema
    [s], name the rowid?  It does as the name of the INTEGER PRIMARY KEY
    column, and as an alias of the rowid that no column of the table
    bears. *)
Definition names_key (s : table_schema) (name : string) : bool :=
  match column_index (tbl_columns s) name with
  | Some j =>
      match primary_key_index s with
      | Some i => Nat.eqb i j
      | None => false
      end
  | None => is_rowid_alias name
  end.

(** The value the statement binds to the rowid: where several entries of
    the column list name it, that of the last one. *)
Fixpoint key_binding (s : table_schema) (cols : list string)
  (vals : list value) : option value :=
  match cols, vals with
  | c :: cols', v :: vals' =>
      match key_binding s cols' vals' with
      | Some later => Some later
      | None => if names_key s c then Some v else None
      end
  | _, _ => None
  end.

(** Does the column list name column [name]?  Does it name the rowid? *)
Definition names_column (cols : list string) (name : string) : bool :=
  existsb (fun c => same_name c name) cols.

Definition names_rowid (s : table_schema) (cols : list string) : bool :=
  existsb (names_key s) cols.

(** The cells with the key cell holding the rowid. *)
Definition with_key (s : table_schema) (id : Z) (vs : list value)
  : list value :=
  match primary_key_index s with
  | Some i => set_nth i (VInt id) vs
  | None => vs
  end.

(** The rowid of the new row and its cells with the key cell filled in:
    the integer bound to the key, or the next rowid where the statement
    binds none or NULL. *)
Definition assign_rowid (t : table) (key : option value) (vs : list value)
  : result (Z * list value) :=
  match key with
  | Some (VInt n) => Ok (n, with_key (tbl_schema t) n vs)
  | Some VNull | None =>
      do id <~ next_rowid t; Ok (id, with_key (tbl_schema t) id vs)
  | Some _ => Err (IntegrityError "datatype mismatch")
  end.

Definition constraint_failed (kind tname cname : string) : exn :=
  IntegrityError (kind ++ " constraint failed: " ++ tname ++ "." ++ cname).

Fixpoint check_not_null (tname : string) (cols : list column)
  (vs : list value) : result unit :=
  match cols, vs with
  | c :: cols', v :: vs' =>
      if col_not_null c && is_null v
      then Err (constraint_failed "NOT NULL" tname (col_name c))
      else check_not_null tname cols' vs'
  | _, _ => Ok tt
  end.

Definition primary_key_name (s : table_schema) : string :=
  match find col_primary_key (tbl_columns s) with
  | Some c => col_name c
  | None => "rowid"
  end.

Definition check_rowid_unique (t : table) (id : Z) : result unit :=
  if existsb (fun r => Z.eqb (rowid r) id) (tbl_rows t)
  then Err (constraint_failed "UNIQUE" (tbl_name (tbl_schema t))
              (primary_key_name (tbl_schema t)))
  else Ok tt.

(** Does some stored row hold [v] in its [i]-th cell?  NULLs are distinct
    from each other in a UNIQUE index. *)
Definition column_holds (rows : list row) (i : nat) (v : value) : bool :=
  negb (is_null v) &&
  existsb (fun r => match nth_error (cells r) i with
                    | Some u => value_eqb u v
                    | None => false
                    end) rows.

Fixpoint check_unique (tname : string) (rows : list row)
  (cols : list column) (i : nat) (vs : list value) : result unit :=
  match cols, vs with
  | c :: cols', v :: vs' =>
      if col_unique c && column_holds rows i v
      then Err (constraint_failed "UNIQUE" tname (col_name c))
      else check_unique tname rows cols' (S i) vs'
  | _, _ => Ok tt
  end.

(** One foreign key of the new row: NULL satisfies it, any other value
    must be held by the parent column of the parent table. *)
Definition foreign_key_holds (db : database) (s : table_schema)
  (vs : list value) (fk : foreign_key) : bool :=
  match column_index (tbl_columns s) (fk_column fk) with
  | None => true
  | Some i =>
      match nth_error vs i with
      | None | Some VNull => true
      | Some v =>
          match lookup_table db (fk_table fk) with
          | None => false
          | Some parent =>
              match column_index (tbl_columns (tbl_schema parent))
                      (fk_parent fk) with
              | None => false
              | Some j => column_holds (tbl_rows parent) j v
              end
          end
      end
  end.

(** Foreign keys are checked only on a connection that turned the
    [foreign_keys] pragma on. *)
Definition check_foreign_keys (enforce : bool) (db : database)
  (s : table_schema) (vs : list value) : result unit :=
  if enforce && negb (forallb (foreign_key_holds db s vs)
                        (tbl_foreign_keys s))
  then Err (IntegrityError "FOREIGN KEY constraint failed")
  else Ok tt.

(** The first entry of the column list that names neither a column of the
    table nor its rowid. *)
Fixpoint unknown_column (s : table_schema) (cols : list string)
  : option string :=
  match cols with
  | [] => None
  | c :: rest =>
      match column_index (tbl_columns s) c with
      | Some _ => unknown_column s rest
      | None => if is_rowid_alias c then unknown_column s rest else Some c
      end
  end.

Definition int64_min : Z := - 2 ^ 63.

(** Binding one Python value to a placeholder: an [int] has to fit 64
    bits, and a NaN is bound as NULL. *)
Definition adapt (v : value) : result value :=
  match v with
  | VInt n =>
      if (int64_min <=? n)%Z && (n <=? int64_max)%Z then Ok v
      else Err (OverflowError
                  "Python int too large to convert to SQLite INTEGER")
  | VReal x => Ok (if PrimFloat.is_nan x then VNull else v)
  | _ => Ok v
  end.

Fixpoint adapt_all (vals : list value) : result (list value) :=
  match vals with
  | [] => Ok []
  | v :: rest =>
      do v' <~ adapt v;
      do rest' <~ adapt_all rest;
      Ok (v' :: rest')
  end.

(** The row of bound values [vals] for the columns [cols] goes into table
    [t] of [db], or a constraint stops it. *)
Definition store_row (enforce : bool) (now : string) (db : database)
  (t : table) (cols : list string) (vals : list value)
  : result (database * row) :=
  let s := tbl_schema t in
  do kv <~ assign_rowid t (key_binding s cols vals)
             (new_cells now s cols vals);
  let (id, vs) := kv in
  do _ <~ check_not_null (tbl_name s) (tbl_columns s) vs;
  do _ <~ check_rowid_unique t id;
  do _ <~ check_unique (tbl_name s) (tbl_rows t) (tbl_columns s) 0 vs;
  do _ <~ check_foreign_keys enforce db s vs;
  let r := {| rowid := id; cells := vs |} in
  Ok (replace_table db
        {| tbl_schema := s;
           tbl_rows := tbl_rows t ++ [r];
           tbl_seq := next_seq t id |},
      r).

(** One execution of the INSERT statement with the parameters [vals]: the
    statement is compiled against the schema, the parameters are bound,
    the row is stored.  The result is the new database and the row that
    went in. *)
Definition insert_row (enforce : bool) (now : string) (db : database)
  (tname : string) (cols : list string) (vals : list value)
  : result (database * row) :=
  match lookup_table db tname with
  | None => Err (OperationalError ("no such table: " ++ tname))
  | Some t =>
      match unknown_column (tbl_schema t) cols with
      | Some c =>
          Err (OperationalError
                 ("table " ++ tname ++ " has no column named " ++ c))
      | None =>
          if negb (Nat.eqb (List.length cols) (List.length vals))
          then Err (wrong_bindings (List.length cols) (List.length vals))
          else
            do bound <~ adapt_all vals;
            store_row enforce now db t cols bound
      end
  end.

(** ** SELECT columns FROM table *)

Fixpoint project (s : table_schema) (cols : list string) (r : row)
  : option (list value) :=
  match cols with
  | [] => Some []
  | c :: rest =>
      match cell s c r, project s rest r with
      | Some v, Some vs => Some (v :: vs)
      | _, _ => None
      end
  end.

Fixpoint all_some {A : Type} (l : list (option A)) : option (list A) :=
  match l with
  | [] => Some []
  | Some a :: rest => option_map (cons a) (all_some rest)
  | None :: _ => None
  end.

Fixpoint insert_by_rowid (r : row) (rows : list row) : list row :=
  match rows with
  | [] => [r]
  | r' :: rest =>
      if (rowid r <? rowid r')%Z then r :: rows
      else r' :: insert_by_rowid r rest
  end.

Definition by_rowid (rows : list row) : list row :=
  fold_right insert_by_rowid [] rows.

(** The rows of [tname], cut to [cols].  The statement has no ORDER BY, so
    SQL leaves their order open; they are listed by rowid, the order in
    which the engine walks the table.  (Where the engine answers from the
    index of a UNIQUE column instead, it lists them in the order of that
    column; for [users] after the run the two orders are the same.) *)
Definition select (db : database) (cols : list string) (tname : string)
  : option (list (list value)) :=
  match lookup_table db tname with
  | None => None
  | Some t =>
      all_some (map (project (tbl_schema t) cols) (by_rowid (tbl_rows t)))
  end.

Definition select_count (db : database) (tname : string) : option nat :=
  option_map (fun t => List.length (tbl_rows t)) (lookup_table db tname).

Definition table_names (db : database) : list string :=
  map (fun t => tbl_name (tbl_schema t)) db.

(** The engine's own table [sqlite_sequence]: for each table with an
    AUTOINCREMENT key that has taken a row, its name and its counter.
    (Rows are never deleted here, so a table has taken a row exactly when
    it holds one.) *)
Definition sqlite_sequence (db : database) : list (string * Z) :=
  map (fun t => (tbl_name (tbl_schema t), tbl_seq t))
      (filter (fun t => autoincrement (tbl_schema t)
                        && negb (Nat.eqb (List.length (tbl_rows t)) 0))
              db).

(** * The Python side *)

(** ** The world the script runs in *)

(** What sits at [DB_PATH]. *)
Inductive file_content : Type :=
| SqliteFile (db : database)
| OtherFile (bytes : list Byte.byte).

Inductive node : Type :=
| Absent
| RegularFile (c : file_content)
| Directory.

(** The statements of the script, parsed, and the pragma that would turn
    foreign-key enforcement on. *)
Inductive statement : Type :=
| CREATE_TABLE (s : table_schema)
| INSERT_INTO (tname : string) (cols : list string)
| PRAGMA_foreign_keys (on : bool).

(** A [sqlite3.Connection]: foreign keys are not enforced unless the pragma
    says so, and [transaction] is the working copy between the implicit
    BEGIN of the first INSERT and [commit]. *)
Record connection : Type :=
  { foreign_keys : bool;
    transaction : option database }.

(** What the process did, call by call and row by row. *)
Inductive event : Type :=
| Removed
| Connected
| Executed (s : statement) (params : list value)
| ExecutedMany (s : statement) (rows : nat)
| RowInserted (tname : string) (r : row)
| Committed
| Closed.

(** The world of the process: the directory of the script and what sits at
    [DB_PATH]; [clock k], the text CURRENT_TIMESTAMP yields during the
    [k]-th statement execution, and the number of statements executed so
    far; the process's connection to the file, when one is open; what was
    printed and what was done, both growing at the head.  Permissions,
    links and other processes are not part of it: the statements below are
    about a run in a directory the process may write to, on a file nobody
    else holds. *)
Record world : Type :=
  { script_dir : string;
    db_file : node;
    clock : nat -> string;
    executed : nat;
    conn : option connection;
    stdout : list string;
    log : list event }.

Definition set_db_file (f : node) (w : world) : world :=
  {| script_dir := script_dir w; db_file := f; clock := clock w;
     executed := executed w; conn := conn w; stdout := stdout w;
     log := log w |}.

Definition set_conn (c : option connection) (w : world) : world :=
  {| script_dir := script_dir w; db_file := db_file w; clock := clock w;
     executed := executed w; conn := c; stdout := stdout w;
     log := log w |}.

Definition tick (w : world) : world :=
  {| script_dir := script_dir w; db_file := db_file w; clock := clock w;
     executed := S (executed w); conn := conn w; stdout := stdout w;
     log := log w |}.

Definition write_stdout (line : string) (w : world) : world :=
  {| script_dir := script_dir w; db_file := db_file w; clock := clock w;
     executed := executed w; conn := conn w; stdout := line :: stdout w;
     log := log w |}.

Definition record (e : event) (w : world) : world :=
  {| script_dir := script_dir w; db_file := db_file w; clock := clock w;
     executed := executed w; conn := conn w; stdout := stdout w;
     log := e :: log w |}.

(** The events and the printed lines in the order they happened. *)
Definition history (w : world) : list event := rev (log w).
Definition printed (w : world) : list string := rev (stdout w).

(** ** Computations that may raise *)

Inductive outcome (A : Type) : Type :=
| Returned (a : A) (w : world)
| Raised (e : exn) (w : world).
Arguments Returned {A} a w.
Arguments Raised {A} e w.

Definition M (A : Type) : Type := world -> outcome A.

Definition ret {A : Type} (a : A) : M A := fun w => Returned a w.

Definition bind {A B : Type} (m : M A) (k : A -> M B) : M B :=
  fun w => match m w with
           | Returned a w' => k a w'
           | Raised e w' => Raised e w'
           end.

Definition raise {A : Type} (e : exn) : M A := fun w => Raised e w.

Definition get : M world := fun w => Returned w w.

Definition modify (f : world -> world) : M unit :=
  fun w => Returned tt (f w).

Definition lift {A : Type} (r : result A) : M A :=
  match r with
  | Ok a => ret a
  | Err e => raise e
  end.

Declare Scope py_scope.
Delimit Scope py_scope with py.
Notation "x <- m ;; k" := (bind m (fun x => k))
  (at level 61, m at next level, right associativity) : py_scope.
Notation "m ;; k" := (bind m (fun _ => k))
  (at level 61, right associativity) : py_scope.
Open Scope py_scope.

(** ** pathlib, os, print *)

Definition DB_PATH (w : world) : string := script_dir w ++ "/test.db".

(** [DB_PATH.exists()]. *)
Definition path_exists : M bool :=
  w <- get ;;
  ret (match db_file w with Absent => false | _ => true end).

(** [os.remove(DB_PATH)]: unlinks a regular file and nothing else.  The
    world holds the node at [DB_PATH] and no more: the directory of the
    script is taken to be writable, so the [PermissionError] of a
    directory that is not has no place here. *)
Definition os_remove : M unit :=
  modify (record Removed) ;;
  w <- get ;;
  match db_file w with
  | RegularFile _ => modify (set_db_file Absent)
  | Absent => raise (OSError "FileNotFoundError")
  | Directory => raise (OSError "IsADirectoryError")
  end.

Definition print (line : string) : M unit := modify (write_stdout line).

(** ** sqlite3 *)

(** A file of no bytes is an empty database. *)
Definition read_database (c : file_content) : result database :=
  match c with
  | SqliteFile db => Ok db
  | OtherFile [] => Ok []
  | OtherFile _ => Err (DatabaseError "file is not a database")
  end.

(** [sqlite3.connect(DB_PATH)]: creates the file when there is none.  As
    for [os_remove], the directory is taken to be writable and [DB_PATH]
    not to be a link that leads nowhere, the two cases in which the engine
    is unable to create the file. *)
Definition sqlite3_connect : M unit :=
  modify (record Connected) ;;
  w <- get ;;
  match db_file w with
  | Directory => raise (OperationalError "unable to open database file")
  | Absent =>
      modify (set_db_file (RegularFile (SqliteFile []))) ;;
      modify (set_conn (Some {| foreign_keys := false;
                                transaction := None |}))
  | RegularFile _ =>
      modify (set_conn (Some {| foreign_keys := false;
                                transaction := None |}))
  end.

Definition the_connection : M connection :=
  w <- get ;;
  match conn w with
  | Some c => ret c
  | None => raise (ProgrammingError "Cannot operate on a closed database.")
  end.

(** [conn.cursor()]: a cursor is a handle on its connection. *)
Definition conn_cursor : M unit :=
  the_connection ;; ret tt.

(** The database a statement sees: the open transaction's working copy,
    else the file. *)
Definition current_database : M database :=
  c <- the_connection ;;
  match transaction c with
  | Some db => ret db
  | None =>
      w <- get ;;
      match db_file w with
      | RegularFile f => lift (read_database f)
      | _ => raise (OperationalError "unable to open database file")
      end
  end.

(** Where a statement's result goes: into the open transaction, else
    straight to the file (autocommit). *)
Definition store_database (db : database) : M unit :=
  c <- the_connection ;;
  match transaction c with
  | Some _ =>
      modify (set_conn (Some {| foreign_keys := foreign_keys c;
                                transaction := Some db |}))
  | None => modify (set_db_file (RegularFile (SqliteFile db)))
  end.

(** The implicit BEGIN the module issues before an INSERT when no
    transaction is open. *)
Definition begin_if_needed : M unit :=
  c <- the_connection ;;
  match transaction c with
  | Some _ => ret tt
  | None =>
      db <- current_database ;;
      modify (set_conn (Some {| foreign_keys := foreign_keys c;
                                transaction := Some db |}))
  end.

(** CURRENT_TIMESTAMP for the statement about to run. *)
Definition statement_time : M string :=
  w <- get ;;
  modify tick ;;
  ret (clock w (executed w)).

Definition no_parameters (params : list value) : M unit :=
  match params with
  | [] => ret tt
  | _ => raise (wrong_bindings 0 (List.length params))
  end.

(** One execution of a statement with its parameters. *)
Definition run_statement (s : statement) (params : list value) : M unit :=
  match s with
  | CREATE_TABLE schema =>
      no_parameters params ;;
      statement_time ;;
      db <- current_database ;;
      db' <- lift (create_table db schema) ;;
      store_database db'
  | INSERT_INTO tname cols =>
      begin_if_needed ;;
      now <- statement_time ;;
      c <- the_connection ;;
      db <- current_database ;;
      res <- lift (insert_row (foreign_keys c) now db tname cols params) ;;
      store_database (fst res) ;;
      modify (record (RowInserted tname (snd res)))
  | PRAGMA_foreign_keys on =>
      no_parameters params ;;
      statement_time ;;
      c <- the_connection ;;
      match transaction c with
      | Some _ => ret tt
      | None =>
          modify (set_conn (Some {| foreign_keys := on;
                                    transaction := None |}))
      end
  end.

(** [cursor.execute(sql, params)]. *)
Definition cursor_execute (s : statement) (params : list value) : M unit :=
  modify (record (Executed s params)) ;;
  run_statement s params.

Fixpoint run_each (s : statement) (rows : list (list value)) : M unit :=
  match rows with
  | [] => ret tt
  | params :: rest => run_statement s params ;; run_each s rest
  end.

(** [cursor.executemany(sql, rows)]: the statement once per row, for an
    INSERT inside the implicit transaction. *)
Definition cursor_executemany (s : statement) (rows : list (list value))
  : M unit :=
  modify (record (ExecutedMany s (List.length rows))) ;;
  match s with
  | INSERT_INTO _ _ => begin_if_needed
  | _ => ret tt
  end ;;
  run_each s rows.

(** [conn.commit()]: the working copy becomes the file. *)
Definition conn_commit : M unit :=
  modify (record Committed) ;;
  c <- the_connection ;;
  match transaction c with
  | Some db =>
      modify (set_db_file (RegularFile (SqliteFile db))) ;;
      modify (set_conn (Some {| foreign_keys := foreign_keys c;
                                transaction := None |}))
  | None => ret tt
  end.

(** [conn.close()]: an uncommitted transaction is dropped. *)
Definition conn_close : M unit :=
  modify (record Closed) ;;
  modify (set_conn None).

(** * The script *)

(** ** The three CREATE TABLE statements *)

Definition users_schema : table_schema :=
  {| tbl_name := "users";
     tbl_columns :=
       [ {| col_name := "id"; col_type := "INTEGER";
            col_constraints := [PRIMARY_KEY_AUTOINCREMENT] |};
         {| col_name := "name"; col_type := "TEXT";
            col_constraints := [NOT_NULL] |};
         {| col_name := "email"; col_type := "TEXT";
            col_constraints := [UNIQUE; NOT_NULL] |};
         {| col_name := "role"; col_type := "TEXT";
            col_constraints := [DEFAULT (Literal (VText "user"))] |};
         {| col_name := "created_at"; col_type := "TIMESTAMP";
            col_constraints := [DEFAULT CURRENT_TIMESTAMP] |} ];
     tbl_foreign_keys := [] |}.

Definition products_schema : table_schema :=
  {| tbl_name := "products";
     tbl_columns :=
       [ {| col_name := "id"; col_type := "INTEGER";
            col_constraints := [PRIMARY_KEY_AUTOINCREMENT] |};
         {| col_name := "name"; col_type := "TEXT";
            col_constraints := [NOT_NULL] |};
         {| col_name := "price"; col_type := "REAL";
            col_constraints := [NOT_NULL] |};
         {| col_name := "stock"; col_type := "INTEGER";
            col_constraints := [DEFAULT (Literal (VInt 0))] |};
         {| col_name := "category"; col_type := "TEXT";
            col_constraints := [] |} ];
     tbl_foreign_keys := [] |}.

Definition orders_schema : table_schema :=
  {| tbl_name := "orders";
     tbl_columns :=
       [ {| col_name := "id"; col_type := "INTEGER";
            col_constraints := [PRIMARY_KEY_AUTOINCREMENT] |};
         {| col_name := "user_id"; col_type := "INTEGER";
            col_constraints := [NOT_NULL] |};
         {| col_name := "product_id"; col_type := "INTEGER";
            col_constraints := [NOT_NULL] |};
         {| col_name := "quantity"; col_type := "INTEGER";
            col_constraints := [NOT_NULL] |};
         {| col_name := "status"; col_type := "TEXT";
            col_constraints := [DEFAULT (Literal (VText "pending"))] |};
         {| col_name := "ordered_at"; col_type := "TIMESTAMP";
            col_constraints := [DEFAULT CURRENT_TIMESTAMP] |} ];
     tbl_foreign_keys :=
       [ {| fk_column := "user_id"; fk_table := "users";
            fk_parent := "id" |};
         {| fk_column := "product_id"; fk_table := "products";
            fk_parent := "id" |} ] |}.

(** ** The three literal lists *)

Definition users : list (list value) :=
  [ [VText "Alice Smith"; VText "alice@example.com"; VText "admin"];
    [VText "Bob Jones"; VText "bob@example.com"; VText "user"];
    [VText "Charlie Brown"; VText "charlie@example.com"; VText "user"];
    [VText "Diana Prince"; VText "diana@example.com"; VText "moderator"];
    [VText "Eve Wilson"; VText "eve@example.com"; VText "user"] ].

(** A price as it is written, [units.cents]. *)
Definition written (units cents : Z) : decimal :=
  {| digits := units * 100 + cents; scale := 2 |}.

Definition price_literals : list decimal :=
  [ written 999 99; written 29 99; written 79 99; written 299 99;
    written 199 99; written 499 99; written 12 99; written 5 99 ].

Definition products : list (list value) :=
  [ [VText "Laptop"; VReal (py_float (written 999 99)); VInt 50;
     VText "electronics"];
    [VText "Mouse"; VReal (py_float (written 29 99)); VInt 200;
     VText "electronics"];
    [VText "Keyboard"; VReal (py_float (written 79 99)); VInt 150;
     VText "electronics"];
    [VText "Monitor"; VReal (py_float (written 299 99)); VInt 75;
     VText "electronics"];
    [VText "Desk Chair"; VReal (py_float (written 199 99)); VInt 30;
     VText "furniture"];
    [VText "Standing Desk"; VReal (py_float (written 499 99)); VInt 20;
     VText "furniture"];
    [VText "Coffee Mug"; VReal (py_float (written 12 99)); VInt 500;
     VText "accessories"];
    [VText "Notebook"; VReal (py_float (written 5 99)); VInt 1000;
     VText "accessories"] ].

Definition orders : list (list value) :=
  [ [VInt 1; VInt 1; VInt 1; VText "completed"];
    [VInt 1; VInt 2; VInt 2; VText "completed"];
    [VInt 2; VInt 3; VInt 1; VText "pending"];
    [VInt 3; VInt 4; VInt 1; VText "shipped"];
    [VInt 4; VInt 5; VInt 1; VText "pending"];
    [VInt 5; VInt 6; VInt 1; VText "cancelled"];
    [VInt 2; VInt 7; VInt 3; VText "completed"];
    [VInt 3; VInt 8; VInt 10; VText "pending"] ].

Definition insert_users : statement :=
  INSERT_INTO "users" ["name"; "email"; "role"].
Definition insert_products : statement :=
  INSERT_INTO "products" ["name"; "price"; "stock"; "category"].
Definition insert_orders : statement :=
  INSERT_INTO "orders" ["user_id"; "product_id"; "quantity"; "status"].

(** ** create_database *)

(** [s] between double quotes, as the last two lines print it. *)
Definition quoted (s : string) : string :=
  String "034"%char (s ++ String "034"%char EmptyString).

Definition create_database : M unit :=
  present <- path_exists ;;
  (if present
   then os_remove ;;
        w <- get ;;
        print ("Removed existing database: " ++ DB_PATH w)
   else ret tt) ;;
  sqlite3_connect ;;
  conn_cursor ;;
  cursor_execute (CREATE_TABLE users_schema) [] ;;
  cursor_execute (CREATE_TABLE products_schema) [] ;;
  cursor_execute (CREATE_TABLE orders_schema) [] ;;
  cursor_executemany insert_users users ;;
  cursor_executemany insert_products products ;;
  cursor_executemany insert_orders orders ;;
  conn_commit ;;
  conn_close ;;
  w <- get ;;
  print ("Created database: " ++ DB_PATH w) ;;
  print "  - users: 5 rows" ;;
  print "  - products: 8 rows" ;;
  print "  - orders: 8 rows" ;;
  print EmptyString ;;
  print "Test commands:" ;;
  print ("  sqlite3 " ++ DB_PATH w ++ " " ++ quoted "SELECT * FROM users;") ;;
  print ("  sqlite3 " ++ DB_PATH w ++ " "
           ++ quoted "DELETE FROM users WHERE id = 1;").

(** ** What a run leaves behind *)

(** The rows a bulk insert of [rows] stores in a new table: each literal
    row behind its position, counted from [next], and, where the table has
    a CURRENT_TIMESTAMP column, in front of the time of its statement. *)
Fixpoint stored (next : Z) (step : nat) (stamp : option (nat -> string))
  (rows : list (list value)) : list row :=
  match rows with
  | [] => []
  | params :: rest =>
      {| rowid := next;
         cells := VInt next :: params
                    ++ match stamp with
                       | Some at_step => [VText (at_step step)]
                       | None => []
                       end |}
      :: stored (next + 1) (S step) stamp rest
  end.

(** The database of a run whose [k]-th statement ran at time [at_step k]:
    statements 0 to 2 create the tables, 3 to 7 insert the users, 8 to 15
    the products and 16 to 23 the orders. *)
Definition fixture (at_step : nat -> string) : database :=
  [ {| tbl_schema := users_schema;
       tbl_rows := stored 1 3 (Some at_step) users;
       tbl_seq := 5 |};
    {| tbl_schema := products_schema;
       tbl_rows := stored 1 8 None products;
       tbl_seq := 8 |};
    {| tbl_schema := orders_schema;
       tbl_rows := stored 1 16 (Some at_step) orders;
       tbl_seq := 8 |} ].

(** The time of the [k]-th statement of a run started in [w]. *)
Definition run_time (w : world) (k : nat) : string :=
  clock w (k + executed w)%nat.

Definition removal (w : world) : list event :=
  match db_file w with
  | Absent => []
  | _ => [Removed]
  end.

Definition run_events (at_step : nat -> string) : list event :=
  [ Connected;
    Executed (CREATE_TABLE users_schema) [];
    Executed (CREATE_TABLE products_schema) [];
    Executed (CREATE_TABLE orders_schema) [];
    ExecutedMany insert_users 5 ]
  ++ map (RowInserted "users") (stored 1 3 (Some at_step) users)
  ++ [ ExecutedMany insert_products 8 ]
  ++ map (RowInserted "products") (stored 1 8 None products)
  ++ [ ExecutedMany insert_orders 8 ]
  ++ map (RowInserted "orders") (stored 1 16 (Some at_step) orders)
  ++ [ Committed; Closed ].

Definition run_output (w : world) : list string :=
  match db_file w with
  | Absent => []
  | _ => [("Removed existing database: " ++ DB_PATH w)%string]
  end
  ++ [ ("Created database: " ++ DB_PATH w)%string;
       "  - users: 5 rows";
       "  - products: 8 rows";
       "  - orders: 8 rows";
       EmptyString;
       "Test commands:";
       ("  sqlite3 " ++ DB_PATH w ++ " "
          ++ quoted "SELECT * FROM users;")%string;
       ("  sqlite3 " ++ DB_PATH w ++ " "
          ++ quoted "DELETE FROM users WHERE id = 1;")%string ].

Definition after_run (w : world) : world :=
  {| script_dir := script_dir w;
     db_file := RegularFile (SqliteFile (fixture (run_time w)));
     clock := clock w;
     executed := (24 + executed w)%nat;
     conn := None;
     stdout := rev (run_output w) ++ stdout w;
     log := rev (removal w ++ run_events (run_time w)) ++ log w |}.

(** ** Worlds to run in *)

Definition world0 : world :=
  {| script_dir := "/repo/apps/mock_db";
     db_file := Absent;
     clock := fun _ => "2025-01-01 00:00:00";
     executed := 0;
     conn := None;
     stdout := [];
     log := [] |}.

(** A second world: [DB_PATH] holds a database of some other application. *)
Definition legacy_database : database :=
  [ {| tbl_schema :=
         {| tbl_name := "sessions";
            tbl_columns :=
              [ {| col_name := "token"; col_type := "TEXT";
                   col_constraints := [NOT_NULL] |} ];
            tbl_foreign_keys := [] |};
       tbl_rows := [ {| rowid := 41; cells := [VText "c0ffee"] |};
                     {| rowid := 42; cells := [VText "decade"] |} ];
       tbl_seq := 0 |};
    {| tbl_schema := users_schema;
       tbl_rows :=
         [ {| rowid := 9;
              cells := [VInt 9; VText "Mallory"; VText "mallory@example.com";
                        VText "user"; VText "2019-05-05 05:05:05"] |} ];
       tbl_seq := 9 |} ].

Definition world1 : world :=
  {| script_dir := "/repo/apps/mock_db";
     db_file := RegularFile (SqliteFile legacy_database);
     clock := fun k => if (k <? 10)%nat then "2025-06-30 23:59:59"
                       else "2025-07-01 00:00:00";
     executed := 0;
     conn := None;
     stdout := [];
     log := [] |}.

(** A world whose clock moves on by a second between a first and a second
    run. *)
Definition world2 : world :=
  {| script_dir := "/repo/apps/mock_db";
     db_file := Absent;
     clock := fun k => if (k <? 24)%nat then "2025-06-30 23:59:59"
                       else "2025-07-01 00:00:00";
     executed := 0;
     conn := None;
     stdout := [];
     log := [] |}.

(** ** Reading the result *)

(** The literal rows behind their positions, counted from [next]. *)
Fixpoint numbered (next : Z) (rows : list (list value)) : list (list value) :=
  match rows with
  | [] => []
  | params :: rest => (VInt next :: params) :: numbered (next + 1) rest
  end.

Definition ids (n : nat) : list (list value) :=
  map (fun k => [VInt (Z.of_nat k)]) (seq 1 n).

(** The columns the script fills in, by table, behind the id. *)
Definition user_columns : list string := ["id"; "name"; "email"; "role"].
Definition product_columns : list string :=
  ["id"; "name"; "price"; "stock"; "category"].
Definition order_columns : list string :=
  ["id"; "user_id"; "product_id"; "quantity"; "status"].

(** How far the float of a literal is from the literal. *)
Definition rounding_error (d : decimal) : option Q :=
  match float_exact (py_float d) with
  | Some q => Some (Qred (q - decimal_value d))
  | None => None
  end.

(** The emails of the literal user rows. *)
Definition emails_of (rows : list (list value)) : list string :=
  flat_map (fun params => match params with
                          | [_; VText e; _] => [e]
                          | _ => []
                          end) rows.

(** ** Later sessions on the file *)

(** A session of its own after the run, opened the way the script opens
    its connection: one INSERT, committed. *)
Definition insert_later (s : statement) (params : list value) : M unit :=
  sqlite3_connect ;;
  conn_cursor ;;
  cursor_execute s params ;;
  conn_commit ;;
  conn_close.

(** The same session with foreign-key enforcement turned on first. *)
Definition insert_later_enforcing (s : statement) (params : list value)
  : M unit :=
  sqlite3_connect ;;
  conn_cursor ;;
  cursor_execute (PRAGMA_foreign_keys true) [] ;;
  cursor_execute s params ;;
  conn_commit ;;
  conn_close.

Definition insert_product_without_stock : statement :=
  INSERT_INTO "products" ["name"; "price"; "category"].
Definition insert_order_without_status : statement :=
  INSERT_INTO "orders" ["user_id"; "product_id"; "quantity"].

(** The world after [insert_later] stored row [r] and left [db']. *)
Definition after_insert (w : world) (s : statement) (params : list value)
  (tname : string) (r : row) (db' : database) : world :=
  {| script_dir := script_dir w;
     db_file := RegularFile (SqliteFile db');
     clock := clock w;
     executed := S (executed w);
     conn := None;
     stdout := stdout w;
     log := Closed :: Committed :: RowInserted tname r
              :: Executed s params :: Connected :: log w |}.

Definition int64 (n : Z) : Prop := int64_min <= n <= int64_max.

(** ** Reading the log *)

Definition sets_foreign_keys (e : event) : bool :=
  match e with
  | Executed (PRAGMA_foreign_keys _) _ => true
  | ExecutedMany (PRAGMA_foreign_keys _) _ => true
  | _ => false
  end.

(** The calls that insert rows, single or bulk. *)
Definition is_insert_call (e : event) : bool :=
  match e with
  | Executed (INSERT_INTO _ _) _ => true
  | ExecutedMany (INSERT_INTO _ _) _ => true
  | _ => false
  end.

Definition inserted_with_id (tname : string) (id : Z) (e : event) : bool :=
  match e with
  | RowInserted t r => String.eqb t tname && Z.eqb (rowid r) id
  | _ => false
  end.

(** Among the events [earlier] are the insertions of the user and of the
    product that the order row [r] refers to. *)
Definition references_inserted (earlier : list event) (r : row) : bool :=
  match cell orders_schema "user_id" r, cell orders_schema "product_id" r with
  | Some (VInt u), Some (VInt p) =>
      existsb (inserted_with_id "users" u) earlier
      && existsb (inserted_with_id "products" p) earlier
  | _, _ => false
  end.

Definition order_follows (earlier : list event) (e : event) : bool :=
  match e with
  | RowInserted t r =>
      if String.eqb t "orders" then references_inserted earlier r else true
  | _ => true
  end.

(** Every insertion of an order in [evs] comes after the insertions it
    refers to; [earlier] holds the events before [evs], latest first. *)
Fixpoint orders_follow (earlier evs : list event) : bool :=
  match evs with
  | [] => true
  | e :: rest => order_follows earlier e && orders_follow (e :: earlier) rest
  end.

(** ** The run in two parts *)

(** Lines 22 to 109 of the script: everything before [conn.commit()]. *)
Definition create_database_until_inserts : M unit :=
  present <- path_exists ;;
  (if present
   then os_remove ;;
        w <- get ;;
        print ("Removed existing database: " ++ DB_PATH w)
   else ret tt) ;;
  sqlite3_connect ;;
  conn_cursor ;;
  cursor_execute (CREATE_TABLE users_schema) [] ;;
  cursor_execute (CREATE_TABLE products_schema) [] ;;
  cursor_execute (CREATE_TABLE orders_schema) [] ;;
  cursor_executemany insert_users users ;;
  cursor_executemany insert_products products ;;
  cursor_executemany insert_orders orders.

(** Lines 111 to 121: commit, close and the report. *)
Definition create_database_from_commit : M unit :=
  conn_commit ;;
  conn_close ;;
  w <- get ;;
  print ("Created database: " ++ DB_PATH w) ;;
  print "  - users: 5 rows" ;;
  print "  - products: 8 rows" ;;
  print "  - orders: 8 rows" ;;
  print EmptyString ;;
  print "Test commands:" ;;
  print ("  sqlite3 " ++ DB_PATH w ++ " " ++ quoted "SELECT * FROM users;") ;;
  print ("  sqlite3 " ++ DB_PATH w ++ " "
           ++ quoted "DELETE FROM users WHERE id = 1;").

(** The three tables as the CREATE TABLE statements leave them. *)
Definition empty_tables : database :=
  [ {| tbl_schema := users_schema; tbl_rows := []; tbl_seq := 0 |};
    {| tbl_schema := products_schema; tbl_rows := []; tbl_seq := 0 |};
    {| tbl_schema := orders_schema; tbl_rows := []; tbl_seq := 0 |} ].

(** A world where [DB_PATH] is a directory. *)
Definition world3 : world :=
  {| script_dir := "/repo/apps/mock_db";
     db_file := Directory;
     clock := fun _ => "2025-01-01 00:00:00";
     executed := 0;
     conn := None;
     stdout := ["an earlier line"];
     log := [] |}.

(** A later session that issues one of the CREATE TABLE statements. *)
Definition create_later (s : table_schema) : M unit :=
  sqlite3_connect ;;
  conn_cursor ;;
  cursor_execute (CREATE_TABLE s) [] ;;
  conn_commit ;;
  conn_close.

(** ** Consistency of the users table *)

(** The texts the rows hold in their [i]-th cell. *)
Definition text_cells (i : nat) (rows : list row) : list string :=
  flat_map (fun r => match nth_error (cells r) i with
                     | Some (VText s) => [s]
                     | _ => []
                     end) rows.

(** The users table is there under the script's schema, no two of its rows
    have the same id and no two the same email. *)
Definition users_consistent (db : database) : Prop :=
  exists t,
    find_table db "users" = Some t /\
    tbl_schema t = users_schema /\
    NoDup (map rowid (tbl_rows t)) /\
    NoDup (text_cells 2 (tbl_rows t)).

(** * Properties *)

(** ** The run as a whole *)

Lemma create_database_returns (w : world) :
  db_file w <> Directory ->
  create_database w = Returned tt (after_run w).
Proof.
  destruct w as [dir file clk n c out lg].
  destruct file as [ | content | ]; simpl; intros Hfile.
  - vm_compute. reflexivity.
  - vm_compute. reflexivity.
  - congruence.
Qed.

Lemma create_database_raises (w : world) :
  db_file w = Directory ->
  create_database w = Raised (OSError "IsADirectoryError") (record Removed w).
Proof.
  destruct w as [dir file clk n c out lg]; simpl.
  intros ->. reflexivity.
Qed.

Lemma successful_run (w w' : world) :
  create_database w = Returned tt w' -> w' = after_run w.
Proof.
  intros Hrun.
  destruct (db_file w) eqn:Hfile.
  - rewrite create_database_returns in Hrun by congruence. congruence.
  - rewrite create_database_returns in Hrun by congruence. congruence.
  - rewrite (create_database_raises w Hfile) in Hrun. discriminate.
Qed.

Lemma successful_run_file (w w' : world) :
  create_database w = Returned tt w' ->
  db_file w' = RegularFile (SqliteFile (fixture (run_time w))).
Proof. intros Hrun. rewrite (successful_run w w' Hrun). reflexivity. Qed.

(** The run returns exactly when [DB_PATH] is not a directory. *)
Lemma create_database_returns_iff (w : world) :
  (exists w', create_database w = Returned tt w') <-> db_file w <> Directory.
Proof.
  split.
  - intros [w' Hrun] Hdir.
    rewrite (create_database_raises w Hdir) in Hrun. discriminate.
  - intros Hfile. exists (after_run w).
    now apply create_database_returns.
Qed.

(** ** Row counts *)

(** C1: after a successful run of [create_database] the table [users]
    holds exactly 5 rows, [products] exactly 8 and [orders] exactly 8. *)
Theorem row_counts (w w' : world) :
  create_database w = Returned tt w' ->
  exists db,
    db_file w' = RegularFile (SqliteFile db) /\
    select_count db "users" = Some 5%nat /\
    select_count db "products" = Some 8%nat /\
    select_count db "orders" = Some 8%nat.
Proof.
  intros Hrun. exists (fixture (run_time w)).
  split; [exact (successful_run_file w w' Hrun) | ].
  repeat split; reflexivity.
Qed.

Lemma row_counts_witness :
  create_database world0 = Returned tt (after_run world0) /\
  exists db,
    db_file (after_run world0) = RegularFile (SqliteFile db) /\
    select_count db "users" = Some 5%nat /\
    select_count db "products" = Some 8%nat /\
    select_count db "orders" = Some 8%nat.
Proof.
  split.
  - vm_compute. reflexivity.
  - apply (row_counts world0 (after_run world0)). vm_compute. reflexivity.
Defined.

(** ** Identity values *)

(** C9: bulk-inserting the literal lists into the new tables assigns the
    ids 1..5 to the users, 1..8 to the products and 1..8 to the orders, in
    list order: the k-th row of each list is the row with id k. *)
Theorem ids_follow_list_order (w w' : world) :
  create_database w = Returned tt w' ->
  exists db,
    db_file w' = RegularFile (SqliteFile db) /\
    select db ["id"] "users" = Some (ids 5) /\
    select db ["id"] "products" = Some (ids 8) /\
    select db ["id"] "orders" = Some (ids 8) /\
    select db ["id"; "name"; "email"; "role"] "users"
      = Some (numbered 1 users) /\
    select db ["id"; "name"; "price"; "stock"; "category"] "products"
      = Some (numbered 1 products) /\
    select db ["id"; "user_id"; "product_id"; "quantity"; "status"] "orders"
      = Some (numbered 1 orders).
Proof.
  intros Hrun. exists (fixture (run_time w)).
  split; [exact (successful_run_file w w' Hrun) | ].
  repeat split; reflexivity.
Qed.

Lemma ids_follow_list_order_witness :
  create_database world1 = Returned tt (after_run world1) /\
  exists db,
    db_file (after_run world1) = RegularFile (SqliteFile db) /\
    select db ["id"] "users" = Some (ids 5) /\
    select db ["id"] "products" = Some (ids 8) /\
    select db ["id"] "orders" = Some (ids 8) /\
    select db ["id"; "name"; "email"; "role"] "users"
      = Some (numbered 1 users) /\
    select db ["id"; "name"; "price"; "stock"; "category"] "products"
      = Some (numbered 1 products) /\
    select db ["id"; "user_id"; "product_id"; "quantity"; "status"] "orders"
      = Some (numbered 1 orders).
Proof.
  split.
  - vm_compute. reflexivity.
  - apply (ids_follow_list_order world1 (after_run world1)).
    vm_compute. reflexivity.
Defined.

(** ** References of the orders *)

(** C2: every order row the run inserts has its [user_id] in 1..5 and its
    [product_id] in 1..8, and these are ids of a user and of a product
    that the same run inserted. *)
Theorem orders_reference_fixture_rows (w w' : world) :
  create_database w = Returned tt w' ->
  exists db refs user_ids product_ids,
    db_file w' = RegularFile (SqliteFile db) /\
    select db ["user_id"; "product_id"] "orders" = Some refs /\
    select db ["id"] "users" = Some user_ids /\
    select db ["id"] "products" = Some product_ids /\
    List.length refs = 8%nat /\
    forall ref, In ref refs ->
      exists u p,
        ref = [VInt u; VInt p] /\
        1 <= u <= 5 /\ 1 <= p <= 8 /\
        In [VInt u] user_ids /\ In [VInt p] product_ids.
Proof.
  intros Hrun.
  exists (fixture (run_time w)).
  exists [ [VInt 1; VInt 1]; [VInt 1; VInt 2]; [VInt 2; VInt 3];
           [VInt 3; VInt 4]; [VInt 4; VInt 5]; [VInt 5; VInt 6];
           [VInt 2; VInt 7]; [VInt 3; VInt 8] ].
  exists (ids 5), (ids 8).
  split; [exact (successful_run_file w w' Hrun) | ].
  repeat (split; [reflexivity | ]).
  intros ref Hin. simpl in Hin.
  repeat (destruct Hin as [<- | Hin];
          [ do 2 eexists; split; [reflexivity | ];
            repeat split; try lia; simpl; tauto | ]).
  contradiction.
Qed.

Lemma orders_reference_fixture_rows_witness :
  create_database world0 = Returned tt (after_run world0) /\
  exists db refs user_ids product_ids,
    db_file (after_run world0) = RegularFile (SqliteFile db) /\
    select db ["user_id"; "product_id"] "orders" = Some refs /\
    select db ["id"] "users" = Some user_ids /\
    select db ["id"] "products" = Some product_ids /\
    List.length refs = 8%nat /\
    forall ref, In ref refs ->
      exists u p,
        ref = [VInt u; VInt p] /\
        1 <= u <= 5 /\ 1 <= p <= 8 /\
        In [VInt u] user_ids /\ In [VInt p] product_ids.
Proof.
  split.
  - vm_compute. reflexivity.
  - apply (orders_reference_fixture_rows world0 (after_run world0)).
    vm_compute. reflexivity.
Defined.

(** ** Full replacement *)

Lemma fixture_tables (at_step : nat -> string) :
  table_names (fixture at_step) = ["users"; "products"; "orders"] /\
  map tbl_schema (fixture at_step)
    = [users_schema; products_schema; orders_schema] /\
  select (fixture at_step) user_columns "users" = Some (numbered 1 users) /\
  select (fixture at_step) product_columns "products"
    = Some (numbered 1 products) /\
  select (fixture at_step) order_columns "orders"
    = Some (numbered 1 orders) /\
  select (fixture at_step) ["created_at"] "users"
    = Some (map (fun k => [VText (at_step k)]) (seq 3 5)) /\
  select (fixture at_step) ["ordered_at"] "orders"
    = Some (map (fun k => [VText (at_step k)]) (seq 16 8)).
Proof. repeat split; reflexivity. Qed.

Lemma find_table_none (db : database) (t : string) :
  ~ In t (table_names db) -> find_table db t = None.
Proof.
  unfold find_table, table_names.
  induction db as [ | tb rest IH]; intros Hnot; [reflexivity | ].
  cbn [find map In] in *. unfold table_named at 1.
  destruct (String.eqb_spec (tbl_name (tbl_schema tb)) t) as [E | _].
  - exfalso. apply Hnot. now left.
  - apply IH. intros Hin. apply Hnot. now right.
Qed.

(** C3: whatever [DB_PATH] held before (nothing, other bytes, a database
    with other tables and rows), a successful run leaves a file with the
    three tables [users], [products], [orders] and no other, holding the
    fixed rows and no other; the engine's AUTOINCREMENT counters beside
    them are those of this run.  Nothing of the file before the run is in
    the file after it: two runs that differ only in what they found leave
    the same file. *)
Theorem full_replace (w w' : world) :
  create_database w = Returned tt w' ->
  exists db,
    db_file w' = RegularFile (SqliteFile db) /\
    table_names db = ["users"; "products"; "orders"] /\
    (forall t, ~ In t ["users"; "products"; "orders"] ->
               find_table db t = None) /\
    select db user_columns "users" = Some (numbered 1 users) /\
    select db product_columns "products" = Some (numbered 1 products) /\
    select db order_columns "orders" = Some (numbered 1 orders) /\
    select_count db "users" = Some (List.length users) /\
    select_count db "products" = Some (List.length products) /\
    select_count db "orders" = Some (List.length orders) /\
    sqlite_sequence db = [("users", 5); ("products", 8); ("orders", 8)] /\
    forall v v',
      create_database v = Returned tt v' ->
      clock v = clock w -> executed v = executed w ->
      db_file v' = db_file w'.
Proof.
  intros Hrun. exists (fixture (run_time w)).
  split; [exact (successful_run_file w w' Hrun) | ].
  split; [reflexivity | ].
  split; [intros t Ht; now apply find_table_none | ].
  repeat (split; [reflexivity | ]).
  intros v v' Hv Hclock Hexecuted.
  rewrite (successful_run_file w w' Hrun), (successful_run_file v v' Hv).
  unfold run_time. now rewrite Hclock, Hexecuted.
Qed.

Lemma full_replace_witness :
  create_database world1 = Returned tt (after_run world1) /\
  find_table legacy_database "sessions" <> None /\
  exists db,
    db_file (after_run world1) = RegularFile (SqliteFile db) /\
    find_table db "sessions" = None /\
    select db user_columns "users" = Some (numbered 1 users).
Proof.
  assert (Hrun : create_database world1 = Returned tt (after_run world1))
    by (vm_compute; reflexivity).
  destruct (full_replace world1 (after_run world1) Hrun)
    as (db & Hfile & _ & Hgone & Husers & _).
  split; [exact Hrun | ].
  split; [vm_compute; discriminate | ].
  exists db. split; [exact Hfile | ]. split; [ | exact Husers].
  apply Hgone. simpl. intros [E | [E | [E | []]]]; discriminate.
Defined.

(** ** Prices *)

(** The floats the eight price literals denote, as [float.hex] shows them. *)
Lemma price_literals_floats :
  map py_float price_literals
  = [ 0x1.f3feb851eb852p+9; 0x1.dfd70a3d70a3dp+4; 0x1.3ff5c28f5c28fp+6;
      0x1.2bfd70a3d70a4p+8; 0x1.8ffae147ae148p+7; 0x1.f3fd70a3d70a4p+8;
      0x1.9fae147ae147bp+3; 0x1.7f5c28f5c28f6p+2 ]%float.
Proof. vm_compute. reflexivity. Qed.

Lemma price_column_is_real :
  exists c, In c (tbl_columns products_schema) /\
            col_name c = "price" /\ affinity_of (col_type c) = AffReal.
Proof.
  exists {| col_name := "price"; col_type := "REAL";
            col_constraints := [NOT_NULL] |}.
  split; [simpl; tauto | split; reflexivity].
Qed.

(** The price stored for the Laptop is the float next to 999.99, which is
    999.99 + 1/109951162777600 and not 999.99. *)
Lemma laptop_price_is_not_the_decimal :
  exists db rest x q,
    create_database world0 = Returned tt (after_run world0) /\
    db_file (after_run world0) = RegularFile (SqliteFile db) /\
    select db ["price"] "products" = Some ([VReal x] :: rest) /\
    float_exact x = Some q /\
    Qred (q - decimal_value (written 999 99)) = (1 # 109951162777600)%Q /\
    ~ (q == decimal_value (written 999 99))%Q.
Proof.
  exists (fixture (run_time world0)).
  eexists. exists (py_float (written 999 99)).
  exists (8796005061277778 # 8796093022208)%Q.
  split; [vm_compute; reflexivity | ].
  split; [reflexivity | ].
  split; [vm_compute; reflexivity | ].
  split; [vm_compute; reflexivity | ].
  split; [vm_compute; reflexivity | ].
  unfold Qeq. vm_compute. intros H. discriminate H.
Qed.

(** C6, as the code has it: the [price] column is declared REAL, so it
    holds binary64 floats and not decimals.  Each literal price is stored
    as the float the Python literal denotes and a query returns that same
    float; none of the eight floats equals the decimal that is written,
    each is within 10^-14 of it. *)
Theorem prices_are_stored_as_floats (w w' : world) :
  create_database w = Returned tt w' ->
  exists db,
    db_file w' = RegularFile (SqliteFile db) /\
    (exists c, In c (tbl_columns products_schema) /\
               col_name c = "price" /\ affinity_of (col_type c) = AffReal) /\
    select db ["price"] "products"
      = Some (map (fun d => [VReal (py_float d)]) price_literals) /\
    Forall (fun d => exists q,
                float_exact (py_float d) = Some q /\
                ~ (q == decimal_value d)%Q /\
                (Qabs (q - decimal_value d) < 1 # 10 ^ 14)%Q)
           price_literals.
Proof.
  intros Hrun. exists (fixture (run_time w)).
  split; [exact (successful_run_file w w' Hrun) | ].
  split; [exact price_column_is_real | ].
  split; [reflexivity | ].
  repeat constructor;
    (eexists; split; [vm_compute; reflexivity | ]; split;
     [ unfold Qeq; vm_compute; intros H; discriminate H
     | unfold Qlt; vm_compute; reflexivity ]).
Qed.

Lemma prices_are_stored_as_floats_witness :
  create_database world0 = Returned tt (after_run world0) /\
  exists db,
    db_file (after_run world0) = RegularFile (SqliteFile db) /\
    select db ["price"] "products"
      = Some (map (fun d => [VReal (py_float d)]) price_literals) /\
    map rounding_error price_literals
      = [ Some (1 # 109951162777600); Some (-11 # 7036874417766400);
          Some (-9 # 1759218604441600); Some (1 # 109951162777600);
          Some (1 # 109951162777600); Some (1 # 109951162777600);
          Some (3 # 14073748835532800); Some (3 # 14073748835532800) ]%Q.
Proof.
  assert (Hrun : create_database world0 = Returned tt (after_run world0))
    by (vm_compute; reflexivity).
  destruct (prices_are_stored_as_floats world0 (after_run world0) Hrun)
    as (db & Hfile & _ & Hprices & _).
  split; [exact Hrun | ].
  exists db. split; [exact Hfile | ]. split; [exact Hprices | ].
  vm_compute. reflexivity.
Defined.

(** ** Two runs in a row *)

(** Two runs in a row, a second apart: the files they leave differ, the
    first user was created at 23:59:59 in one and at 00:00:00 in the
    other. *)
Lemma second_run_differs :
  exists w1 w2 db1 db2,
    create_database world2 = Returned tt w1 /\
    create_database w1 = Returned tt w2 /\
    db_file w1 = RegularFile (SqliteFile db1) /\
    db_file w2 = RegularFile (SqliteFile db2) /\
    select db1 ["id"; "created_at"] "users"
      = Some (map (fun k => [VInt k; VText "2025-06-30 23:59:59"])
                  [1; 2; 3; 4; 5]) /\
    select db2 ["id"; "created_at"] "users"
      = Some (map (fun k => [VInt k; VText "2025-07-01 00:00:00"])
                  [1; 2; 3; 4; 5]) /\
    db_file w1 <> db_file w2.
Proof.
  exists (after_run world2), (after_run (after_run world2)).
  exists (fixture (run_time world2)), (fixture (run_time (after_run world2))).
  split; [vm_compute; reflexivity | ].
  split; [vm_compute; reflexivity | ].
  split; [reflexivity | ].
  split; [reflexivity | ].
  split; [vm_compute; reflexivity | ].
  split; [vm_compute; reflexivity | ].
  vm_compute. intros H. discriminate H.
Qed.

Lemma fixture_same_times (s t : nat -> string) :
  (forall k, (k < 24)%nat -> s k = t k) -> fixture s = fixture t.
Proof.
  intros Hsame. unfold fixture. cbn [stored users orders app].
  rewrite !Hsame by lia. reflexivity.
Qed.

(** C4, as the code has it: two runs in a row leave the same three tables
    with the same row counts, the same ids, counted from 1 again, and the
    same values in every column the script fills in.  The columns
    [created_at] and [ordered_at] hold the time of each insertion, so they
    agree between the two files when the clock read the same during both
    runs, and then the two files are identical. *)
Theorem rerun_same_content (w0 w1 w2 : world) :
  create_database w0 = Returned tt w1 ->
  create_database w1 = Returned tt w2 ->
  exists db1 db2,
    db_file w1 = RegularFile (SqliteFile db1) /\
    db_file w2 = RegularFile (SqliteFile db2) /\
    table_names db1 = table_names db2 /\
    map tbl_schema db1 = map tbl_schema db2 /\
    (select_count db1 "users" = Some 5%nat /\
     select_count db2 "users" = Some 5%nat) /\
    (select_count db1 "products" = Some 8%nat /\
     select_count db2 "products" = Some 8%nat) /\
    (select_count db1 "orders" = Some 8%nat /\
     select_count db2 "orders" = Some 8%nat) /\
    (select db1 user_columns "users" = Some (numbered 1 users) /\
     select db2 user_columns "users" = Some (numbered 1 users)) /\
    (select db1 product_columns "products" = Some (numbered 1 products) /\
     select db2 product_columns "products" = Some (numbered 1 products)) /\
    (select db1 order_columns "orders" = Some (numbered 1 orders) /\
     select db2 order_columns "orders" = Some (numbered 1 orders)) /\
    ((forall k, (k < 24)%nat -> run_time w0 k = run_time w1 k) ->
     db1 = db2).
Proof.
  intros Hfirst Hsecond.
  exists (fixture (run_time w0)), (fixture (run_time w1)).
  split; [exact (successful_run_file w0 w1 Hfirst) | ].
  split; [exact (successful_run_file w1 w2 Hsecond) | ].
  repeat (split; [first [reflexivity | split; reflexivity] | ]).
  apply fixture_same_times.
Qed.

Lemma rerun_same_content_witness :
  create_database world0 = Returned tt (after_run world0) /\
  create_database (after_run world0)
    = Returned tt (after_run (after_run world0)) /\
  db_file (after_run world0) = db_file (after_run (after_run world0)).
Proof.
  assert (H1 : create_database world0 = Returned tt (after_run world0))
    by (vm_compute; reflexivity).
  assert (H2 : create_database (after_run world0)
               = Returned tt (after_run (after_run world0)))
    by (vm_compute; reflexivity).
  destruct (rerun_same_content _ _ _ H1 H2)
    as (db1 & db2 & Hf1 & Hf2 & _ & _ & _ & _ & _ & _ & _ & _ & Hsame).
  split; [exact H1 | ]. split; [exact H2 | ].
  rewrite Hf1, Hf2. f_equal. f_equal.
  apply Hsame. intros k _. reflexivity.
Defined.

(** ** The engine, in general *)

Lemma lookup_found (db : database) (name : string) (t : table) :
  find_table db name = Some t -> lookup_table db name = Some t.
Proof.
  unfold lookup_table. now intros ->.
Qed.

Lemma binding_not_named (name : string) (cols : list string)
  (vals : list value) :
  names_column cols name = false -> binding name cols vals = None.
Proof.
  revert vals.
  induction cols as [ | c cols IH]; intros vals Hnot; [reflexivity | ].
  destruct vals as [ | v vals]; [reflexivity | ].
  cbn [names_column existsb] in Hnot.
  apply orb_false_iff in Hnot as [Hc Hrest].
  cbn [binding]. rewrite Hc. now apply IH.
Qed.

Lemma key_binding_not_named (s : table_schema) (cols : list string)
  (vals : list value) :
  names_rowid s cols = false -> key_binding s cols vals = None.
Proof.
  revert vals.
  induction cols as [ | c cols IH]; intros vals Hnot; [reflexivity | ].
  destruct vals as [ | v vals]; [reflexivity | ].
  cbn [names_rowid existsb] in Hnot.
  apply orb_false_iff in Hnot as [Hc Hrest].
  cbn [key_binding]. rewrite (IH vals Hrest), Hc. reflexivity.
Qed.

(** Binding the parameters keeps each under its column. *)
Lemma binding_adapt (name : string) (cols : list string)
  (vals bound : list value) (v : value) :
  adapt_all vals = Ok bound ->
  binding name cols vals = Some v ->
  exists v', adapt v = Ok v' /\ binding name cols bound = Some v'.
Proof.
  revert vals bound.
  induction cols as [ | c cols IH]; intros vals bound Hall Hv;
    [discriminate | ].
  destruct vals as [ | v0 vals]; [discriminate | ].
  cbn [adapt_all] in Hall.
  destruct (adapt v0) as [v0' | ] eqn:Hv0; [ | discriminate].
  cbn [and_then] in Hall.
  destruct (adapt_all vals) as [rest | ] eqn:Hrest; [ | discriminate].
  cbn [and_then] in Hall. injection Hall as <-.
  cbn [binding] in *.
  destruct (same_name c name).
  - injection Hv as <-. now exists v0'.
  - now apply (IH vals rest).
Qed.

Lemma new_cells_nth (now : string) (s : table_schema) (cols : list string)
  (vals : list value) (i : nat) (c : column) :
  nth_error (tbl_columns s) i = Some c ->
  nth_error (new_cells now s cols vals) i
  = Some (stored_as c
            match binding (col_name c) cols vals with
            | Some v => v
            | None => default_value now c
            end).
Proof.
  intros Hc. unfold new_cells.
  now rewrite nth_error_map, Hc.
Qed.

Lemma set_nth_other (i j : nat) (v : value) (l : list value) :
  i <> j -> nth_error (set_nth i v l) j = nth_error l j.
Proof.
  revert i j.
  induction l as [ | x l IH]; intros i j Hij.
  - now destruct i.
  - destruct i as [ | i], j as [ | j]; cbn [set_nth nth_error];
      try reflexivity; try congruence.
    apply IH. congruence.
Qed.

(** The key cell apart, a row goes in as it was built. *)
Lemma assign_rowid_keeps (t : table) (key : option value)
  (vs vs' : list value) (id : Z) (j : nat) :
  assign_rowid t key vs = Ok (id, vs') ->
  primary_key_index (tbl_schema t) <> Some j ->
  nth_error vs' j = nth_error vs j.
Proof.
  unfold assign_rowid, with_key. intros Hassign Hkey.
  assert (Hset : forall n,
             nth_error
               match primary_key_index (tbl_schema t) with
               | Some i => set_nth i (VInt n) vs
               | None => vs
               end j = nth_error vs j).
  { intros n. destruct (primary_key_index (tbl_schema t)) as [i | ];
      [ | reflexivity].
    apply set_nth_other. congruence. }
  destruct key as [[ | n | x | s] | ]; try discriminate;
    try (destruct (next_rowid t); cbn [and_then] in Hassign;
         [injection Hassign as <- <-; apply Hset | discriminate]).
  injection Hassign as <- <-. apply Hset.
Qed.

(** A row that brings no key gets the next rowid. *)
Lemma assign_rowid_auto (t : table) (key : option value)
  (vs vs' : list value) (id : Z) :
  assign_rowid t key vs = Ok (id, vs') ->
  key = None \/ key = Some VNull ->
  id = top_rowid t + 1 /\ vs' = with_key (tbl_schema t) id vs.
Proof.
  unfold assign_rowid, next_rowid. intros Hassign [-> | ->];
    destruct (Z.leb int64_max _); cbn [and_then] in Hassign;
    try discriminate; injection Hassign as <- <-; now split.
Qed.

(** A row that brings its key keeps it. *)
Lemma assign_rowid_given (t : table) (vs vs' : list value) (id k : Z) :
  assign_rowid t (Some (VInt k)) vs = Ok (id, vs') -> id = k.
Proof.
  cbn [assign_rowid]. now intros [= <- _].
Qed.

(** What a stored row went through. *)
Lemma store_row_ok (enforce : bool) (now : string) (db db' : database)
  (t : table) (cols : list string) (vals : list value) (r : row) :
  store_row enforce now db t cols vals = Ok (db', r) ->
  assign_rowid t (key_binding (tbl_schema t) cols vals)
    (new_cells now (tbl_schema t) cols vals)
    = Ok (rowid r, cells r) /\
  check_not_null (tbl_name (tbl_schema t)) (tbl_columns (tbl_schema t))
    (cells r) = Ok tt /\
  check_rowid_unique t (rowid r) = Ok tt /\
  check_unique (tbl_name (tbl_schema t)) (tbl_rows t)
    (tbl_columns (tbl_schema t)) 0 (cells r) = Ok tt /\
  check_foreign_keys enforce db (tbl_schema t) (cells r) = Ok tt /\
  db' = replace_table db
          {| tbl_schema := tbl_schema t;
             tbl_rows := tbl_rows t ++ [r];
             tbl_seq := next_seq t (rowid r) |}.
Proof.
  unfold store_row. intros Hins.
  destruct (assign_rowid t _ _) as [[id vs] | ] eqn:Hassign;
    [ | discriminate].
  cbn [and_then] in Hins.
  destruct (check_not_null _ _ _) as [[] | ] eqn:Hnull; [ | discriminate].
  destruct (check_rowid_unique _ _) as [[] | ] eqn:Hkey; [ | discriminate].
  destruct (check_unique _ _ _ _ _) as [[] | ] eqn:Huniq; [ | discriminate].
  destruct (check_foreign_keys _ _ _ _) as [[] | ] eqn:Hfk;
    [ | discriminate].
  cbn [and_then] in Hins. injection Hins as <- <-.
  cbn [rowid cells]. repeat split; assumption.
Qed.

(** What a successful INSERT went through. *)
Lemma insert_row_ok (enforce : bool) (now : string) (db db' : database)
  (tname : string) (cols : list string) (vals : list value) (r : row) :
  insert_row enforce now db tname cols vals = Ok (db', r) ->
  exists t bound,
    lookup_table db tname = Some t /\
    adapt_all vals = Ok bound /\
    store_row enforce now db t cols bound = Ok (db', r).
Proof.
  unfold insert_row. intros Hins.
  destruct (lookup_table db tname) as [t | ]; [ | discriminate].
  destruct (unknown_column (tbl_schema t) cols); [discriminate | ].
  destruct (negb _); [discriminate | ].
  destruct (adapt_all vals) as [bound | ] eqn:Hbound; [ | discriminate].
  cbn [and_then] in Hins.
  now exists t, bound.
Qed.

Lemma insert_row_at (enforce : bool) (now : string) (db db' : database)
  (tname : string) (cols : list string) (vals : list value) (r : row)
  (t : table) :
  lookup_table db tname = Some t ->
  insert_row enforce now db tname cols vals = Ok (db', r) ->
  exists bound,
    adapt_all vals = Ok bound /\
    store_row enforce now db t cols bound = Ok (db', r).
Proof.
  intros Hfind Hins.
  apply insert_row_ok in Hins as (t0 & bound & Hfind0 & Hbound & Hstore).
  rewrite Hfind in Hfind0.
  injection Hfind0 as <-. now exists bound.
Qed.

Lemma insert_row_into (enforce : bool) (now : string) (db db' : database)
  (tname : string) (cols : list string) (vals : list value) (r : row)
  (t : table) :
  find_table db tname = Some t ->
  insert_row enforce now db tname cols vals = Ok (db', r) ->
  exists bound,
    adapt_all vals = Ok bound /\
    store_row enforce now db t cols bound = Ok (db', r).
Proof.
  intros Hfind. apply insert_row_at. now apply lookup_found.
Qed.

(** The table a statement means is stored under its own name. *)
Lemma lookup_table_name (db : database) (name : string) (t : table) :
  lookup_table db name = Some t ->
  find_table db (tbl_name (tbl_schema t)) = Some t.
Proof.
  unfold lookup_table.
  destruct (find_table db name) as [t0 | ] eqn:Hexact.
  - intros [= <-].
    pose proof Hexact as Hname.
    unfold find_table in Hname. apply find_some in Hname as [_ Hname].
    apply String.eqb_eq in Hname. now rewrite Hname.
  - clear Hexact. unfold find_table.
    induction db as [ | u db IH]; cbn [find]; [discriminate | ].
    destruct (same_name (tbl_name (tbl_schema u)) name) eqn:Hu.
    + intros [= <-]. unfold table_named. now rewrite String.eqb_refl.
    + intros Hrest.
      destruct (table_named (tbl_name (tbl_schema t)) u) eqn:Hexact;
        [ | now apply IH].
      exfalso. unfold table_named in Hexact.
      apply String.eqb_eq in Hexact.
      apply find_some in Hrest as [_ Hsame].
      rewrite <- Hexact in Hsame. congruence.
Qed.

(** An INSERT that compiles and binds is the storing of its row. *)
Lemma insert_row_compiled (enforce : bool) (now : string) (db : database)
  (tname : string) (cols : list string) (vals bound : list value)
  (t : table) :
  find_table db tname = Some t ->
  unknown_column (tbl_schema t) cols = None ->
  List.length cols = List.length vals ->
  adapt_all vals = Ok bound ->
  insert_row enforce now db tname cols vals
  = store_row enforce now db t cols bound.
Proof.
  intros Hfind Hcols Hlen Hbound. unfold insert_row.
  rewrite (lookup_found db tname t Hfind), Hcols, Hlen, Nat.eqb_refl, Hbound.
  reflexivity.
Qed.

Lemma find_replace_table (db : database) (t t' : table) :
  find_table db (tbl_name (tbl_schema t')) = Some t ->
  find_table (replace_table db t') (tbl_name (tbl_schema t')) = Some t'.
Proof.
  unfold find_table.
  induction db as [ | u db IH]; cbn [find replace_table]; [discriminate | ].
  intros Hfind.
  destruct (table_named (tbl_name (tbl_schema t')) u) eqn:Hu.
  - cbn [find]. unfold table_named at 1.
    now rewrite String.eqb_refl.
  - cbn [find]. rewrite Hu. now apply IH.
Qed.

Lemma find_table_name (db : database) (name : string) (t : table) :
  find_table db name = Some t -> tbl_name (tbl_schema t) = name.
Proof.
  unfold find_table. intros Hfind.
  apply find_some in Hfind as [_ Hname].
  now apply String.eqb_eq.
Qed.

(** The stored row is the last row of its table afterwards. *)
Lemma store_row_appends (enforce : bool) (now : string) (db db' : database)
  (tname : string) (t : table) (cols : list string) (vals : list value)
  (r : row) :
  find_table db tname = Some t ->
  store_row enforce now db t cols vals = Ok (db', r) ->
  exists t',
    find_table db' tname = Some t' /\
    tbl_schema t' = tbl_schema t /\
    tbl_rows t' = tbl_rows t ++ [r].
Proof.
  intros Hfind Hstore.
  apply store_row_ok in Hstore as (_ & _ & _ & _ & _ & ->).
  pose proof (find_table_name db tname t Hfind) as Hname.
  exists {| tbl_schema := tbl_schema t;
            tbl_rows := tbl_rows t ++ [r];
            tbl_seq := next_seq t (rowid r) |}.
  split; [ | split; reflexivity].
  rewrite <- Hname in *.
  exact (find_replace_table db t
           {| tbl_schema := tbl_schema t;
              tbl_rows := tbl_rows t ++ [r];
              tbl_seq := next_seq t (rowid r) |} Hfind).
Qed.

(** A column the statement does not name, the key apart, holds its
    default in the stored row. *)
Lemma store_row_default (enforce : bool) (now : string) (db db' : database)
  (t : table) (cols : list string) (vals : list value) (r : row)
  (i : nat) (c : column) :
  store_row enforce now db t cols vals = Ok (db', r) ->
  nth_error (tbl_columns (tbl_schema t)) i = Some c ->
  primary_key_index (tbl_schema t) <> Some i ->
  names_column cols (col_name c) = false ->
  nth_error (cells r) i = Some (stored_as c (default_value now c)).
Proof.
  intros Hstore Hc Hkey Hnot.
  apply store_row_ok in Hstore as (Hassign & _).
  rewrite (assign_rowid_keeps _ _ _ _ _ i Hassign Hkey).
  rewrite (new_cells_nth now _ cols vals i c Hc).
  now rewrite (binding_not_named _ cols vals Hnot).
Qed.

(** A UNIQUE column that already holds the new value stops the INSERT. *)
Lemma check_unique_rejects (tname : string) (rows : list row)
  (cols : list column) (vs : list value) (base i : nat) (c : column)
  (v : value) :
  nth_error cols i = Some c -> nth_error vs i = Some v ->
  col_unique c = true -> column_holds rows (base + i) v = true ->
  check_unique tname rows cols base vs <> Ok tt.
Proof.
  revert vs base i.
  induction cols as [ | c0 cols IH]; intros vs base i Hc Hv Hu Hheld.
  - now destruct i.
  - destruct vs as [ | v0 vs]; [now destruct i | ].
    cbn [check_unique].
    destruct i as [ | i]; cbn [nth_error] in Hc, Hv.
    + injection Hc as ->. injection Hv as ->.
      rewrite Nat.add_0_r in Hheld. rewrite Hu, Hheld. discriminate.
    + destruct (col_unique c0 && column_holds rows base v0);
        [discriminate | ].
      apply (IH vs (S base) i); auto.
      now replace (S base + i)%nat with (base + S i)%nat by lia.
Qed.

(** ** Later sessions, in general *)

Lemma insert_later_returns (w : world) (db db' : database)
  (tname : string) (cols : list string) (params : list value) (r : row) :
  db_file w = RegularFile (SqliteFile db) ->
  insert_row false (clock w (executed w)) db tname cols params
    = Ok (db', r) ->
  insert_later (INSERT_INTO tname cols) params w
  = Returned tt (after_insert w (INSERT_INTO tname cols) params tname r db').
Proof.
  destruct w as [dir file clk n c out lg]. cbn [db_file clock executed].
  intros -> Hins.
  unfold insert_later, sqlite3_connect, conn_cursor, cursor_execute,
    run_statement, begin_if_needed, statement_time, current_database,
    the_connection, store_database, conn_commit, conn_close, bind, modify,
    get, ret.
  cbn. rewrite Hins. reflexivity.
Qed.

Lemma insert_later_raises (w : world) (db : database)
  (tname : string) (cols : list string) (params : list value) (e : exn) :
  db_file w = RegularFile (SqliteFile db) ->
  insert_row false (clock w (executed w)) db tname cols params = Err e ->
  exists w'',
    insert_later (INSERT_INTO tname cols) params w = Raised e w'' /\
    db_file w'' = db_file w.
Proof.
  destruct w as [dir file clk n c out lg]. cbn [db_file clock executed].
  intros -> Hins.
  unfold insert_later, sqlite3_connect, conn_cursor, cursor_execute,
    run_statement, begin_if_needed, statement_time, current_database,
    the_connection, store_database, conn_commit, conn_close, bind, modify,
    get, ret.
  cbn. rewrite Hins. eexists. split; reflexivity.
Qed.

(** ** Unique emails *)

Lemma emails_distinct : NoDup (emails_of users).
Proof.
  cbv [emails_of users flat_map app].
  repeat constructor; cbn [In]; intuition discriminate.
Qed.

Lemma fixture_users_table (at_step : nat -> string) :
  find_table (fixture at_step) "users"
  = Some {| tbl_schema := users_schema;
            tbl_rows := stored 1 3 (Some at_step) users;
            tbl_seq := 5 |}.
Proof. reflexivity. Qed.

(** The script's own INSERT with an email of the fixture. *)
Lemma duplicate_email_unique_error (at_step : nat -> string) (now : string)
  (name e role : string) :
  In e (emails_of users) ->
  insert_row false now (fixture at_step) "users" ["name"; "email"; "role"]
    [VText name; VText e; VText role]
  = Err (IntegrityError "UNIQUE constraint failed: users.email").
Proof.
  cbv [emails_of users flat_map app]. cbn [In].
  intros [<- | [<- | [<- | [<- | [<- | []]]]]]; vm_compute; reflexivity.
Qed.

(** Any INSERT that binds an email of the fixture. *)
Lemma duplicate_email_never_stored (at_step : nat -> string)
  (enforce : bool) (now : string) (cols : list string) (vals : list value)
  (e : string) :
  binding "email" cols vals = Some (VText e) ->
  In e (emails_of users) ->
  exists err,
    insert_row enforce now (fixture at_step) "users" cols vals = Err err.
Proof.
  intros Hbinds Hin.
  destruct (insert_row enforce now (fixture at_step) "users" cols vals)
    as [[db' r] | err] eqn:Hins; [exfalso | now exists err].
  apply (insert_row_into _ _ _ _ _ _ _ _ _ (fixture_users_table at_step))
    in Hins as (bound & Hbound & Hstore).
  destruct (binding_adapt "email" cols vals bound _ Hbound Hbinds)
    as (v' & Hadapt & Hbinds').
  cbn [adapt] in Hadapt. injection Hadapt as <-.
  apply store_row_ok in Hstore as (Hassign & _ & _ & Huniq & _).
  cbn [tbl_schema tbl_rows] in *.
  assert (Hcell : nth_error (cells r) 2 = Some (VText e)).
  { rewrite (assign_rowid_keeps _ _ _ _ _ 2%nat Hassign)
      by (vm_compute; discriminate).
    rewrite (new_cells_nth now users_schema cols bound 2
               {| col_name := "email"; col_type := "TEXT";
                  col_constraints := [UNIQUE; NOT_NULL] |})
      by reflexivity.
    cbn [col_name]. now rewrite Hbinds'. }
  revert Huniq.
  apply (check_unique_rejects "users" _ (tbl_columns users_schema)
           (cells r) 0 2
           {| col_name := "email"; col_type := "TEXT";
              col_constraints := [UNIQUE; NOT_NULL] |}
           (VText e)); [reflexivity | exact Hcell | reflexivity | ].
  revert Hin. cbv [emails_of users flat_map app]. cbn [In].
  intros [<- | [<- | [<- | [<- | [<- | []]]]]]; vm_compute; reflexivity.
Qed.

(** C5: in the fixture no two users have the same email, and a later
    INSERT of a user whose email is one of the fixture's does not go
    through: the script's own INSERT statement raises the UNIQUE violation
    on [users.email] and leaves the file as it was, and no INSERT that
    binds such an email, whatever its column list, stores a row. *)
Theorem duplicate_email_rejected (w w' : world) :
  create_database w = Returned tt w' ->
  exists db emails,
    db_file w' = RegularFile (SqliteFile db) /\
    select db ["email"] "users" = Some (map (fun e => [VText e]) emails) /\
    NoDup emails /\
    (forall name e role,
       In e emails ->
       exists w'',
         insert_later insert_users [VText name; VText e; VText role] w'
         = Raised (IntegrityError "UNIQUE constraint failed: users.email")
                  w'' /\
         db_file w'' = db_file w') /\
    (forall enforce now cols vals e,
       NoDup cols ->
       binding "email" cols vals = Some (VText e) ->
       In e emails ->
       exists err, insert_row enforce now db "users" cols vals = Err err).
Proof.
  intros Hrun.
  exists (fixture (run_time w)), (emails_of users).
  pose proof (successful_run_file w w' Hrun) as Hfile.
  split; [exact Hfile | ].
  split; [reflexivity | ].
  split; [exact emails_distinct | ].
  split.
  - intros name e role Hin.
    apply (insert_later_raises w' (fixture (run_time w)) "users"
             ["name"; "email"; "role"] [VText name; VText e; VText role]
             (IntegrityError "UNIQUE constraint failed: users.email") Hfile).
    exact (duplicate_email_unique_error _ _ name e role Hin).
  - intros enforce now cols vals e _ Hbinds Hin.
    exact (duplicate_email_never_stored _ enforce now cols vals e
             Hbinds Hin).
Qed.

Lemma duplicate_email_rejected_witness :
  create_database world0 = Returned tt (after_run world0) /\
  (exists w'',
     insert_later insert_users
       [VText "Bob Again"; VText "bob@example.com"; VText "admin"]
       (after_run world0)
     = Raised (IntegrityError "UNIQUE constraint failed: users.email") w'' /\
     db_file w'' = db_file (after_run world0)) /\
  (exists err,
     insert_row true "2025-01-02 00:00:00" (fixture (run_time world0))
       "users" ["email"; "name"]
       [VText "eve@example.com"; VText "Eve Two"] = Err err).
Proof.
  assert (Hrun : create_database world0 = Returned tt (after_run world0))
    by (vm_compute; reflexivity).
  destruct (duplicate_email_rejected world0 (after_run world0) Hrun)
    as (db & emails & Hfile & Hemails & _ & Htyped & Hany).
  injection Hfile as <-.
  vm_compute in Hemails.
  assert (Hlist : emails = emails_of users).
  { injection Hemails as Hmap.
    repeat (destruct emails as [ | ? emails]; [discriminate Hmap | ]).
    destruct emails; [ | discriminate Hmap].
    injection Hmap as <- <- <- <- <-. reflexivity. }
  subst emails.
  split; [exact Hrun | ]. split.
  - apply Htyped. vm_compute. tauto.
  - apply (Hany true _ ["email"; "name"] _ "eve@example.com").
    + repeat constructor; cbn [In]; intuition discriminate.
    + reflexivity.
    + vm_compute. tauto.
Defined.

(** ** Defaults *)

Lemma fixture_products_table (at_step : nat -> string) :
  find_table (fixture at_step) "products"
  = Some {| tbl_schema := products_schema;
            tbl_rows := stored 1 8 None products;
            tbl_seq := 8 |}.
Proof. reflexivity. Qed.

Lemma fixture_orders_table (at_step : nat -> string) :
  find_table (fixture at_step) "orders"
  = Some {| tbl_schema := orders_schema;
            tbl_rows := stored 1 16 (Some at_step) orders;
            tbl_seq := 8 |}.
Proof. reflexivity. Qed.

Lemma adapt_int64 (n : Z) : int64 n -> adapt (VInt n) = Ok (VInt n).
Proof.
  unfold int64, adapt. intros [Hlow Hhigh].
  apply Z.leb_le in Hlow, Hhigh. now rewrite Hlow, Hhigh.
Qed.

Lemma adapt_number (x : float) :
  PrimFloat.is_nan x = false -> adapt (VReal x) = Ok (VReal x).
Proof. unfold adapt. now intros ->. Qed.

(** Under the products schema, an INSERT that does not name [stock]
    stores 0 there. *)
Lemma stock_defaults_to_zero (enforce : bool) (now : string)
  (db db' : database) (t : table) (tname : string) (cols : list string)
  (vals : list value) (r : row) :
  lookup_table db tname = Some t ->
  tbl_schema t = products_schema ->
  names_column cols "stock" = false ->
  insert_row enforce now db tname cols vals = Ok (db', r) ->
  cell products_schema "stock" r = Some (VInt 0) /\
  exists t', find_table db' "products" = Some t' /\
             tbl_rows t' = tbl_rows t ++ [r].
Proof.
  intros Hlookup Hschema Hnot Hins.
  apply (insert_row_at _ _ _ _ _ _ _ _ t Hlookup) in Hins
    as (bound & _ & Hstore).
  split.
  - change (cell products_schema "stock" r) with (nth_error (cells r) 3).
    rewrite (store_row_default _ _ _ _ _ _ _ _ 3%nat
               {| col_name := "stock"; col_type := "INTEGER";
                  col_constraints := [DEFAULT (Literal (VInt 0))] |}
               Hstore);
      rewrite ?Hschema; try reflexivity; try assumption.
    vm_compute. discriminate.
  - apply lookup_table_name in Hlookup. rewrite Hschema in Hlookup.
    destruct (store_row_appends _ _ _ _ _ _ _ _ _ Hlookup Hstore)
      as (t' & Hfind' & _ & Hrows).
    now exists t'.
Qed.

(** Under the orders schema, an INSERT that does not name [status]
    stores 'pending' there. *)
Lemma status_defaults_to_pending (enforce : bool) (now : string)
  (db db' : database) (t : table) (tname : string) (cols : list string)
  (vals : list value) (r : row) :
  lookup_table db tname = Some t ->
  tbl_schema t = orders_schema ->
  names_column cols "status" = false ->
  insert_row enforce now db tname cols vals = Ok (db', r) ->
  cell orders_schema "status" r = Some (VText "pending") /\
  exists t', find_table db' "orders" = Some t' /\
             tbl_rows t' = tbl_rows t ++ [r].
Proof.
  intros Hlookup Hschema Hnot Hins.
  apply (insert_row_at _ _ _ _ _ _ _ _ t Hlookup) in Hins
    as (bound & _ & Hstore).
  split.
  - change (cell orders_schema "status" r) with (nth_error (cells r) 4).
    rewrite (store_row_default _ _ _ _ _ _ _ _ 4%nat
               {| col_name := "status"; col_type := "TEXT";
                  col_constraints := [DEFAULT (Literal (VText "pending"))] |}
               Hstore);
      rewrite ?Hschema; try reflexivity; try assumption.
    vm_compute. discriminate.
  - apply lookup_table_name in Hlookup. rewrite Hschema in Hlookup.
    destruct (store_row_appends _ _ _ _ _ _ _ _ _ Hlookup Hstore)
      as (t' & Hfind' & _ & Hrows).
    now exists t'.
Qed.

(** After the run such inserts do go through.  The price comes back as
    the REAL column gives it. *)
Lemma product_without_stock_stored (at_step : nat -> string) (now : string)
  (name : string) (price : float) (category : string) :
  PrimFloat.is_nan price = false ->
  exists db' r,
    insert_row false now (fixture at_step) "products"
      ["name"; "price"; "category"]
      [VText name; VReal price; VText category] = Ok (db', r) /\
    select db' product_columns "products"
    = Some (numbered 1 products
              ++ [[VInt 9; VText name; VReal (real_read price); VInt 0;
                   VText category]]).
Proof.
  intros Hnan.
  rewrite (insert_row_compiled false now (fixture at_step) "products" _ _
             [VText name; VReal price; VText category] _
             (fixture_products_table at_step));
    [ | reflexivity | reflexivity
      | cbn [adapt_all and_then]; rewrite (adapt_number price Hnan);
        reflexivity ].
  do 2 eexists. split; [lazy; reflexivity | vm_compute; reflexivity].
Qed.

Lemma order_without_status_stored (at_step : nat -> string) (now : string)
  (u p q : Z) :
  int64 u -> int64 p -> int64 q ->
  exists db' r,
    insert_row false now (fixture at_step) "orders"
      ["user_id"; "product_id"; "quantity"] [VInt u; VInt p; VInt q]
    = Ok (db', r) /\
    select db' order_columns "orders"
    = Some (numbered 1 orders
              ++ [[VInt 9; VInt u; VInt p; VInt q; VText "pending"]]).
Proof.
  intros Hu Hp Hq.
  rewrite (insert_row_compiled false now (fixture at_step) "orders" _ _
             [VInt u; VInt p; VInt q] _ (fixture_orders_table at_step));
    [ | reflexivity | reflexivity
      | cbn [adapt_all]; rewrite (adapt_int64 u Hu), (adapt_int64 p Hp),
          (adapt_int64 q Hq); reflexivity ].
  do 2 eexists. split; [lazy; reflexivity | vm_compute; reflexivity].
Qed.

(** C8: under the schema the script creates, a product row inserted
    without a stock value holds stock 0, and an order row inserted without
    a status holds status 'pending'.  This holds for every INSERT whose
    column list does not name the column, under whatever case of the
    letters the statement writes its names, in any state of the database;
    and after the run an INSERT of a product without stock, and of an
    order without status, is accepted and the row it stores shows the
    default next to the values given (the price as the REAL column gives
    it back: a zero as [+0.0], any other number as it is). *)
Theorem defaults_fill_unnamed_columns :
  (forall enforce now db db' t tname cols vals r,
     lookup_table db tname = Some t ->
     tbl_schema t = products_schema ->
     names_column cols "stock" = false ->
     insert_row enforce now db tname cols vals = Ok (db', r) ->
     cell products_schema "stock" r = Some (VInt 0) /\
     exists t', find_table db' "products" = Some t' /\
                tbl_rows t' = tbl_rows t ++ [r]) /\
  (forall enforce now db db' t tname cols vals r,
     lookup_table db tname = Some t ->
     tbl_schema t = orders_schema ->
     names_column cols "status" = false ->
     insert_row enforce now db tname cols vals = Ok (db', r) ->
     cell orders_schema "status" r = Some (VText "pending") /\
     exists t', find_table db' "orders" = Some t' /\
                tbl_rows t' = tbl_rows t ++ [r]) /\
  (forall w w' name price category,
     create_database w = Returned tt w' ->
     PrimFloat.is_nan price = false ->
     exists w'' db'',
       insert_later insert_product_without_stock
         [VText name; VReal price; VText category] w' = Returned tt w'' /\
       db_file w'' = RegularFile (SqliteFile db'') /\
       select db'' product_columns "products"
       = Some (numbered 1 products
                 ++ [[VInt 9; VText name; VReal (real_read price); VInt 0;
                      VText category]])) /\
  (forall w w' u p q,
     create_database w = Returned tt w' ->
     int64 u -> int64 p -> int64 q ->
     exists w'' db'',
       insert_later insert_order_without_status
         [VInt u; VInt p; VInt q] w' = Returned tt w'' /\
       db_file w'' = RegularFile (SqliteFile db'') /\
       select db'' order_columns "orders"
       = Some (numbered 1 orders
                 ++ [[VInt 9; VInt u; VInt p; VInt q; VText "pending"]])).
Proof.
  split; [ | split; [ | split]].
  - intros. eapply stock_defaults_to_zero; eassumption.
  - intros. eapply status_defaults_to_pending; eassumption.
  - intros w w' name price category Hrun Hnan.
    pose proof (successful_run_file w w' Hrun) as Hfile.
    destruct (product_without_stock_stored (run_time w)
                (clock w' (executed w')) name price category Hnan)
      as (db' & r & Hins & Hsel).
    eexists. exists db'.
    split; [exact (insert_later_returns w' _ db' _ _ _ r Hfile Hins) | ].
    split; [reflexivity | exact Hsel].
  - intros w w' u p q Hrun Hu Hp Hq.
    pose proof (successful_run_file w w' Hrun) as Hfile.
    destruct (order_without_status_stored (run_time w)
                (clock w' (executed w')) u p q Hu Hp Hq)
      as (db' & r & Hins & Hsel).
    eexists. exists db'.
    split; [exact (insert_later_returns w' _ db' _ _ _ r Hfile Hins) | ].
    split; [reflexivity | exact Hsel].
Qed.

Lemma defaults_fill_unnamed_columns_witness :
  create_database world0 = Returned tt (after_run world0) /\
  (exists w'' db'',
     insert_later insert_product_without_stock
       [VText "Webcam"; VReal 49.5; VText "electronics"] (after_run world0)
     = Returned tt w'' /\
     db_file w'' = RegularFile (SqliteFile db'') /\
     select db'' product_columns "products"
     = Some (numbered 1 products
               ++ [[VInt 9; VText "Webcam"; VReal 49.5; VInt 0;
                    VText "electronics"]])) /\
  (exists w'' db'',
     insert_later insert_product_without_stock
       [VText "Sample"; VReal PrimFloat.neg_zero; VText "free"]
       (after_run world0)
     = Returned tt w'' /\
     db_file w'' = RegularFile (SqliteFile db'') /\
     select db'' product_columns "products"
     = Some (numbered 1 products
               ++ [[VInt 9; VText "Sample"; VReal PrimFloat.zero; VInt 0;
                    VText "free"]])) /\
  (exists w'' db'',
     insert_later insert_order_without_status
       [VInt 2; VInt 3; VInt 4] (after_run world0) = Returned tt w'' /\
     db_file w'' = RegularFile (SqliteFile db'') /\
     select db'' order_columns "orders"
     = Some (numbered 1 orders
               ++ [[VInt 9; VInt 2; VInt 3; VInt 4; VText "pending"]])) /\
  (exists db' r,
     insert_row true "2025-01-02 00:00:00" (fixture (run_time world0))
       "Products" ["PRICE"; "name"] [VReal 3.5; VText "Cable"]
     = Ok (db', r) /\
     cell products_schema "stock" r = Some (VInt 0)) /\
  (exists db' r,
     insert_row true "2025-01-02 00:00:00" (fixture (run_time world0))
       "orders" ["quantity"; "product_id"; "user_id"]
       [VInt 7; VInt 8; VInt 5]
     = Ok (db', r) /\
     cell orders_schema "status" r = Some (VText "pending")).
Proof.
  assert (Hrun : create_database world0 = Returned tt (after_run world0))
    by (vm_compute; reflexivity).
  destruct defaults_fill_unnamed_columns
    as (Hstock & Hstatus & Hproduct & Horder).
  split; [exact Hrun | ].
  split; [apply (Hproduct world0 _ "Webcam" 49.5%float "electronics");
          [exact Hrun | reflexivity] | ].
  split; [apply (Hproduct world0 _ "Sample" PrimFloat.neg_zero "free");
          [exact Hrun | reflexivity] | ].
  split; [apply (Horder world0);
          [exact Hrun | | | ]; unfold int64; vm_compute;
          split; discriminate | ].
  split.
  - destruct (insert_row true "2025-01-02 00:00:00"
                (fixture (run_time world0)) "Products" ["PRICE"; "name"]
                [VReal 3.5; VText "Cable"]) as [[db' r] | e] eqn:Hins;
      [ | vm_compute in Hins; discriminate Hins].
    exists db', r. split; [reflexivity | ].
    exact (proj1 (Hstock true "2025-01-02 00:00:00"
                    (fixture (run_time world0)) db' _ "Products"
                    ["PRICE"; "name"] [VReal 3.5; VText "Cable"] r
                    eq_refl eq_refl eq_refl Hins)).
  - destruct (insert_row true "2025-01-02 00:00:00"
                (fixture (run_time world0)) "orders"
                ["quantity"; "product_id"; "user_id"]
                [VInt 7; VInt 8; VInt 5]) as [[db' r] | e] eqn:Hins;
      [ | vm_compute in Hins; discriminate Hins].
    exists db', r. split; [reflexivity | ].
    exact (proj1 (Hstatus true "2025-01-02 00:00:00"
                    (fixture (run_time world0)) db' _ "orders"
                    ["quantity"; "product_id"; "user_id"]
                    [VInt 7; VInt 8; VInt 5] r
                    eq_refl eq_refl eq_refl Hins)).
Defined.

(** ** Foreign keys *)

Lemma history_after_run (w : world) :
  history (after_run w) = history w ++ removal w ++ run_events (run_time w).
Proof.
  unfold history, after_run. cbn [log].
  now rewrite rev_app_distr, rev_involutive.
Qed.

Lemma run_sets_no_pragma (w : world) :
  Forall (fun e => sets_foreign_keys e = false)
         (removal w ++ run_events (run_time w)).
Proof.
  apply Forall_app. split.
  - unfold removal. destruct (db_file w); repeat constructor.
  - repeat constructor.
Qed.

(** An order that refers to whatever ids goes in when foreign keys are
    not enforced. *)
Lemma order_stored_unchecked (at_step : nat -> string) (now : string)
  (u p q : Z) (status : string) :
  int64 u -> int64 p -> int64 q ->
  exists db' r,
    insert_row false now (fixture at_step) "orders"
      ["user_id"; "product_id"; "quantity"; "status"]
      [VInt u; VInt p; VInt q; VText status] = Ok (db', r) /\
    select db' order_columns "orders"
    = Some (numbered 1 orders
              ++ [[VInt 9; VInt u; VInt p; VInt q; VText status]]).
Proof.
  intros Hu Hp Hq.
  rewrite (insert_row_compiled false now (fixture at_step) "orders" _ _
             [VInt u; VInt p; VInt q; VText status] _
             (fixture_orders_table at_step));
    [ | reflexivity | reflexivity
      | cbn [adapt_all]; rewrite (adapt_int64 u Hu), (adapt_int64 p Hp),
          (adapt_int64 q Hq); reflexivity ].
  do 2 eexists. split; [lazy; reflexivity | vm_compute; reflexivity].
Qed.

(** With the pragma turned on, the same INSERT of an order for a user 99
    raises, and the INSERT of an order for user 5 and product 8 goes in. *)
Lemma enforcing_session_checks_references :
  (exists w'',
     insert_later_enforcing insert_orders
       [VInt 99; VInt 1; VInt 1; VText "pending"] (after_run world0)
     = Raised (IntegrityError "FOREIGN KEY constraint failed") w'' /\
     db_file w'' = db_file (after_run world0)) /\
  (exists w'' db'',
     insert_later_enforcing insert_orders
       [VInt 5; VInt 8; VInt 1; VText "pending"] (after_run world0)
     = Returned tt w'' /\
     db_file w'' = RegularFile (SqliteFile db'') /\
     select_count db'' "orders" = Some 9%nat).
Proof.
  split.
  - eexists. split; [lazy; reflexivity | vm_compute; reflexivity].
  - do 2 eexists.
    split; [lazy; reflexivity | split; [reflexivity | ]].
    vm_compute. reflexivity.
Qed.

(** C10: the run never turns foreign-key enforcement on: no pragma is
    among its calls, and the connection starts with enforcement off.  In
    the database it leaves, a session opened the same way stores an order
    row whose [user_id] or [product_id] is the id of no user or product,
    without an error. *)
Theorem foreign_keys_not_enforced (w w' : world) :
  create_database w = Returned tt w' ->
  exists db evs,
    db_file w' = RegularFile (SqliteFile db) /\
    history w' = history w ++ evs /\
    Forall (fun e => sets_foreign_keys e = false) evs /\
    select db ["id"] "users" = Some (ids 5) /\
    select db ["id"] "products" = Some (ids 8) /\
    forall u p q status,
      int64 u -> int64 p -> int64 q ->
      ~ In [VInt u] (ids 5) \/ ~ In [VInt p] (ids 8) ->
      exists w'' db'',
        insert_later insert_orders
          [VInt u; VInt p; VInt q; VText status] w' = Returned tt w'' /\
        db_file w'' = RegularFile (SqliteFile db'') /\
        select db'' order_columns "orders"
        = Some (numbered 1 orders
                  ++ [[VInt 9; VInt u; VInt p; VInt q; VText status]]).
Proof.
  intros Hrun.
  exists (fixture (run_time w)), (removal w ++ run_events (run_time w)).
  pose proof (successful_run_file w w' Hrun) as Hfile.
  split; [exact Hfile | ].
  split; [rewrite (successful_run w w' Hrun); apply history_after_run | ].
  split; [apply run_sets_no_pragma | ].
  split; [reflexivity | ]. split; [reflexivity | ].
  intros u p q status Hu Hp Hq _.
  destruct (order_stored_unchecked (run_time w) (clock w' (executed w'))
              u p q status Hu Hp Hq) as (db' & r & Hins & Hsel).
  eexists. exists db'.
  split; [exact (insert_later_returns w' _ db' _ _ _ r Hfile Hins) | ].
  split; [reflexivity | exact Hsel].
Qed.

Lemma foreign_keys_not_enforced_witness :
  create_database world1 = Returned tt (after_run world1) /\
  ~ In [VInt 99] (ids 5) /\
  exists w'' db'',
    insert_later insert_orders
      [VInt 99; VInt 1234; VInt 1; VText "pending"] (after_run world1)
    = Returned tt w'' /\
    db_file w'' = RegularFile (SqliteFile db'') /\
    select db'' order_columns "orders"
    = Some (numbered 1 orders
              ++ [[VInt 9; VInt 99; VInt 1234; VInt 1; VText "pending"]]).
Proof.
  assert (Hrun : create_database world1 = Returned tt (after_run world1))
    by (vm_compute; reflexivity).
  assert (Hnone : ~ In [VInt 99] (ids 5))
    by (cbn; intuition discriminate).
  destruct (foreign_keys_not_enforced world1 (after_run world1) Hrun)
    as (db & evs & _ & _ & _ & _ & _ & Hstores).
  split; [exact Hrun | ]. split; [exact Hnone | ].
  apply Hstores; try (unfold int64; vm_compute; split; discriminate).
  now left.
Defined.

(** ** Order of the insertions *)

Lemma inserted_with_id_spec (tname : string) (id : Z) (e : event) :
  inserted_with_id tname id e = true ->
  exists r, e = RowInserted tname r /\ rowid r = id.
Proof.
  destruct e as [ | | | | t r | | ]; cbn [inserted_with_id];
    try discriminate.
  intros Hboth. apply andb_true_iff in Hboth as [Hname Hid].
  apply String.eqb_eq in Hname. apply Z.eqb_eq in Hid.
  exists r. now subst.
Qed.

Lemma references_inserted_spec (earlier : list event) (r : row) :
  references_inserted earlier r = true ->
  exists ru rp,
    In (RowInserted "users" ru) earlier /\
    In (RowInserted "products" rp) earlier /\
    cell orders_schema "user_id" r = Some (VInt (rowid ru)) /\
    cell orders_schema "product_id" r = Some (VInt (rowid rp)).
Proof.
  unfold references_inserted.
  destruct (cell orders_schema "user_id" r) as [[ | u | | ] | ];
    try discriminate.
  destruct (cell orders_schema "product_id" r) as [[ | p | | ] | ];
    try discriminate.
  intros Hboth. apply andb_true_iff in Hboth as [Hu Hp].
  apply existsb_exists in Hu as (eu & Hin_u & Hu).
  apply existsb_exists in Hp as (ep & Hin_p & Hp).
  apply inserted_with_id_spec in Hu as (ru & -> & <-).
  apply inserted_with_id_spec in Hp as (rp & -> & <-).
  now exists ru, rp.
Qed.

Lemma orders_follow_sound (evs earlier : list event) :
  orders_follow earlier evs = true ->
  forall pre r post,
    evs = pre ++ RowInserted "orders" r :: post ->
    references_inserted (rev pre ++ earlier) r = true.
Proof.
  revert earlier.
  induction evs as [ | e rest IH]; intros earlier Hok pre r post Hsplit.
  - now destruct pre.
  - cbn [orders_follow] in Hok.
    apply andb_true_iff in Hok as [Hhead Hrest].
    destruct pre as [ | e' pre]; cbn [app] in Hsplit;
      injection Hsplit as -> Htail.
    + exact Hhead.
    + cbn [rev]. rewrite <- app_assoc.
      exact (IH (e' :: earlier) Hrest pre r post Htail).
Qed.

Lemma run_orders_follow (w : world) :
  orders_follow [] (removal w ++ run_events (run_time w)) = true.
Proof.
  unfold removal. destruct (db_file w); vm_compute; reflexivity.
Qed.

(** C7: in every run the rows go in by one bulk call per table, first the
    users, then the products, then the orders, each row within the call of
    its table; and when an order row goes in, the user and the product it
    refers to went in before. *)
Theorem inserts_are_bulk_and_ordered (w w' : world) :
  create_database w = Returned tt w' ->
  exists db user_rows product_rows order_rows evs,
    db_file w' = RegularFile (SqliteFile db) /\
    option_map tbl_rows (find_table db "users") = Some user_rows /\
    option_map tbl_rows (find_table db "products") = Some product_rows /\
    option_map tbl_rows (find_table db "orders") = Some order_rows /\
    history w' = history w ++ evs /\
    evs = removal w
          ++ [ Connected;
               Executed (CREATE_TABLE users_schema) [];
               Executed (CREATE_TABLE products_schema) [];
               Executed (CREATE_TABLE orders_schema) [] ]
          ++ ExecutedMany insert_users 5
             :: map (RowInserted "users") user_rows
          ++ ExecutedMany insert_products 8
             :: map (RowInserted "products") product_rows
          ++ ExecutedMany insert_orders 8
             :: map (RowInserted "orders") order_rows
          ++ [ Committed; Closed ] /\
    filter is_insert_call evs
    = [ ExecutedMany insert_users 5; ExecutedMany insert_products 8;
        ExecutedMany insert_orders 8 ] /\
    forall pre r post,
      evs = pre ++ RowInserted "orders" r :: post ->
      exists ru rp,
        In (RowInserted "users" ru) pre /\
        In (RowInserted "products" rp) pre /\
        cell orders_schema "user_id" r = Some (VInt (rowid ru)) /\
        cell orders_schema "product_id" r = Some (VInt (rowid rp)).
Proof.
  intros Hrun.
  exists (fixture (run_time w)).
  exists (stored 1 3 (Some (run_time w)) users).
  exists (stored 1 8 None products).
  exists (stored 1 16 (Some (run_time w)) orders).
  exists (removal w ++ run_events (run_time w)).
  split; [exact (successful_run_file w w' Hrun) | ].
  repeat (split; [reflexivity | ]).
  split; [rewrite (successful_run w w' Hrun); apply history_after_run | ].
  split; [reflexivity | ].
  split; [unfold removal; destruct (db_file w); reflexivity | ].
  intros pre r post Hsplit.
  pose proof (orders_follow_sound _ [] (run_orders_follow w) pre r post
                Hsplit) as Hrefs.
  rewrite app_nil_r in Hrefs.
  destruct (references_inserted_spec _ r Hrefs)
    as (ru & rp & Hu & Hp & Hcu & Hcp).
  exists ru, rp.
  repeat split; try assumption; now apply in_rev.
Qed.

Lemma inserts_are_bulk_and_ordered_witness :
  create_database world1 = Returned tt (after_run world1) /\
  exists evs,
    history (after_run world1) = history world1 ++ evs /\
    filter is_insert_call evs
    = [ ExecutedMany insert_users 5; ExecutedMany insert_products 8;
        ExecutedMany insert_orders 8 ] /\
    List.length evs = 31%nat /\
    nth_error evs 0 = Some Removed /\
    nth_error evs 28 =
      Some (RowInserted "orders"
              {| rowid := 8;
                 cells := [VInt 8; VInt 3; VInt 8; VInt 10; VText "pending";
                           VText "2025-07-01 00:00:00"] |}).
Proof.
  assert (Hrun : create_database world1 = Returned tt (after_run world1))
    by (vm_compute; reflexivity).
  destruct (inserts_are_bulk_and_ordered world1 (after_run world1) Hrun)
    as (db & urows & prows & orows & evs & Hfile & Hu & Hp & Ho & Hhist
        & Hevs & Hcalls & _).
  split; [exact Hrun | ].
  exists evs. split; [exact Hhist | ]. split; [exact Hcalls | ].
  injection Hfile as <-.
  injection Hu as <-. injection Hp as <-. injection Ho as <-.
  subst evs. vm_compute. repeat split; reflexivity.
Defined.

(** * Further properties of the script *)

(** ** What the run prints *)




(** ** A directory at DB_PATH *)

(** X2: when [DB_PATH] is a directory, [os.remove] raises and the run
    stops there: nothing is printed, no connection is opened, no statement
    is executed and the directory stays. *)
Theorem directory_stops_run (w : world) :
  db_file w = Directory ->
  exists w',
    create_database w = Raised (OSError "IsADirectoryError") w' /\
    db_file w' = Directory /\
    printed w' = printed w /\
    conn w' = conn w /\
    executed w' = executed w /\
    history w' = history w ++ [Removed].
Proof.
  intros Hdir. exists (record Removed w).
  split; [now apply create_database_raises | ].
  cbn [record db_file conn executed]. repeat split; try assumption.
Qed.

Lemma directory_stops_run_witness :
  db_file world3 = Directory /\
  exists w',
    create_database world3 = Raised (OSError "IsADirectoryError") w' /\
    db_file w' = Directory /\
    printed w' = ["an earlier line"] /\
    history w' = [Removed].
Proof.
  split; [reflexivity | ].
  destruct (directory_stops_run world3 eq_refl)
    as (w' & Hrun & Hfile & Hout & _ & _ & Hlog).
  exists w'. repeat split; assumption.
Defined.

(** ** The commit *)

Lemma create_database_in_two_parts (w : world) :
  create_database w
  = (create_database_until_inserts ;; create_database_from_commit) w.
Proof.
  destruct w as [dir file clk n c out lg].
  destruct file as [ | content | ]; vm_compute; reflexivity.
Qed.

(** X4: the CREATE TABLE statements go to the file at once, the rows do
    not: when the three bulk inserts are done the file holds the three
    tables without a row and all 21 rows sit in the connection's open
    transaction.  Closing there would leave the empty tables; it is
    [conn.commit()] that puts the rows into the file. *)
Theorem rows_reach_file_at_commit (w : world) :
  db_file w <> Directory ->
  exists mid,
    create_database_until_inserts w = Returned tt mid /\
    db_file mid = RegularFile (SqliteFile empty_tables) /\
    conn mid = Some {| foreign_keys := false;
                       transaction := Some (fixture (run_time w)) |} /\
    (exists closed,
       conn_close mid = Returned tt closed /\
       db_file closed = RegularFile (SqliteFile empty_tables) /\
       conn closed = None) /\
    (exists committed,
       conn_commit mid = Returned tt committed /\
       db_file committed = RegularFile (SqliteFile (fixture (run_time w))) /\
       conn committed = Some {| foreign_keys := false;
                                transaction := None |}) /\
    create_database_from_commit mid = Returned tt (after_run w).
Proof.
  destruct w as [dir file clk n c out lg].
  destruct file as [ | content | ]; cbn [db_file]; intros Hfile;
    try congruence.
  - eexists. split; [lazy; reflexivity | ].
    split; [reflexivity | ]. split; [reflexivity | ].
    split; [eexists; split; [lazy; reflexivity | split; reflexivity] | ].
    split; [eexists; split; [lazy; reflexivity | split; reflexivity] | ].
    vm_compute. reflexivity.
  - eexists. split; [lazy; reflexivity | ].
    split; [reflexivity | ]. split; [reflexivity | ].
    split; [eexists; split; [lazy; reflexivity | split; reflexivity] | ].
    split; [eexists; split; [lazy; reflexivity | split; reflexivity] | ].
    vm_compute. reflexivity.
Qed.

Lemma rows_reach_file_at_commit_witness :
  db_file world1 <> Directory /\
  exists mid db,
    create_database_until_inserts world1 = Returned tt mid /\
    db_file mid = RegularFile (SqliteFile db) /\
    table_names db = ["users"; "products"; "orders"] /\
    select_count db "users" = Some 0%nat /\
    select_count db "products" = Some 0%nat /\
    select_count db "orders" = Some 0%nat /\
    create_database_from_commit mid = Returned tt (after_run world1).
Proof.
  assert (Hfile : db_file world1 <> Directory) by discriminate.
  split; [exact Hfile | ].
  destruct (rows_reach_file_at_commit world1 Hfile)
    as (mid & Hmid & Hdb & _ & _ & _ & Hrest).
  exists mid, empty_tables.
  repeat (split; [first [assumption | reflexivity] | ]).
  exact Hrest.
Defined.

(** ** Timestamps *)

(** X5: [created_at] and [ordered_at] hold, row by row, the time at which
    the row's own INSERT ran: the k-th user that of statement 2 + k of the
    run, the k-th order that of statement 15 + k.  Rows of one run differ
    there when the clock moves during the run. *)
Theorem rows_carry_statement_time (w w' : world) :
  create_database w = Returned tt w' ->
  exists db,
    db_file w' = RegularFile (SqliteFile db) /\
    select db ["id"; "created_at"] "users"
    = Some (map (fun k => [VInt (Z.of_nat k);
                           VText (clock w (2 + k + executed w))])
                (seq 1 5)) /\
    select db ["id"; "ordered_at"] "orders"
    = Some (map (fun k => [VInt (Z.of_nat k);
                           VText (clock w (15 + k + executed w))])
                (seq 1 8)).
Proof.
  intros Hrun. exists (fixture (run_time w)).
  split; [exact (successful_run_file w w' Hrun) | ].
  split; reflexivity.
Qed.

Lemma rows_carry_statement_time_witness :
  create_database world1 = Returned tt (after_run world1) /\
  exists db,
    db_file (after_run world1) = RegularFile (SqliteFile db) /\
    select db ["created_at"] "users"
    = Some (repeat [VText "2025-06-30 23:59:59"] 5) /\
    select db ["ordered_at"] "orders"
    = Some (repeat [VText "2025-07-01 00:00:00"] 8).
Proof.
  assert (Hrun : create_database world1 = Returned tt (after_run world1))
    by (vm_compute; reflexivity).
  destruct (rows_carry_statement_time world1 (after_run world1) Hrun)
    as (db & Hfile & _ & _).
  split; [exact Hrun | ].
  exists db. split; [exact Hfile | ].
  injection Hfile as <-. split; vm_compute; reflexivity.
Defined.

(** ** More of the engine, in general *)

Lemma binding_none_adapt (name : string) (cols : list string)
  (vals bound : list value) :
  adapt_all vals = Ok bound ->
  binding name cols vals = None ->
  binding name cols bound = None.
Proof.
  revert vals bound.
  induction cols as [ | c cols IH]; intros vals bound Hall Hnone;
    [reflexivity | ].
  destruct vals as [ | v0 vals].
  - cbn [adapt_all] in Hall. injection Hall as <-. reflexivity.
  - cbn [adapt_all] in Hall.
    destruct (adapt v0) as [v0' | ]; [ | discriminate].
    cbn [and_then] in Hall.
    destruct (adapt_all vals) as [rest | ] eqn:Hrest; [ | discriminate].
    cbn [and_then] in Hall. injection Hall as <-.
    cbn [binding] in *.
    destruct (same_name c name); [discriminate | ].
    now apply (IH vals rest).
Qed.

(** Binding the parameters keeps the one that is bound to the rowid. *)
Lemma key_binding_adapt (s : table_schema) (cols : list string)
  (vals bound : list value) :
  adapt_all vals = Ok bound ->
  match key_binding s cols vals with
  | Some v => exists v', adapt v = Ok v' /\
                         key_binding s cols bound = Some v'
  | None => key_binding s cols bound = None
  end.
Proof.
  revert vals bound.
  induction cols as [ | c cols IH]; intros vals bound Hall;
    [reflexivity | ].
  destruct vals as [ | v0 vals].
  - cbn [adapt_all] in Hall. injection Hall as <-. reflexivity.
  - cbn [adapt_all] in Hall.
    destruct (adapt v0) as [v0' | ] eqn:Hv0; [ | discriminate].
    cbn [and_then] in Hall.
    destruct (adapt_all vals) as [rest | ] eqn:Hrest; [ | discriminate].
    cbn [and_then] in Hall. injection Hall as <-.
    specialize (IH vals rest Hrest).
    cbn [key_binding].
    destruct (key_binding s cols vals) as [later | ].
    + destruct IH as (v' & Hadapt & ->). now exists v'.
    + rewrite IH. destruct (names_key s c); [ | reflexivity].
      now exists v0'.
Qed.

Lemma stored_as_null (c : column) : stored_as c VNull = VNull.
Proof.
  unfold stored_as. now destruct (affinity_of (col_type c)).
Qed.

Lemma insert_row_default (enforce : bool) (now : string) (db db' : database)
  (tname : string) (t : table) (cols : list string) (vals : list value)
  (r : row) (i : nat) (c : column) :
  lookup_table db tname = Some t ->
  insert_row enforce now db tname cols vals = Ok (db', r) ->
  nth_error (tbl_columns (tbl_schema t)) i = Some c ->
  primary_key_index (tbl_schema t) <> Some i ->
  names_column cols (col_name c) = false ->
  nth_error (cells r) i = Some (stored_as c (default_value now c)).
Proof.
  intros Hfind Hins Hc Hkey Hnot.
  apply (insert_row_at _ _ _ _ _ _ _ _ t Hfind) in Hins
    as (bound & _ & Hstore).
  exact (store_row_default _ _ _ _ _ _ _ _ i c Hstore Hc Hkey Hnot).
Qed.

(** A NOT NULL column that gets NULL stops the INSERT. *)
Lemma check_not_null_rejects (tname : string) (cols : list column)
  (vs : list value) (i : nat) (c : column) :
  nth_error cols i = Some c -> nth_error vs i = Some VNull ->
  col_not_null c = true ->
  check_not_null tname cols vs <> Ok tt.
Proof.
  revert vs i.
  induction cols as [ | c0 cols IH]; intros vs i Hc Hv Hnn.
  - now destruct i.
  - destruct vs as [ | v0 vs]; [now destruct i | ].
    cbn [check_not_null].
    destruct i as [ | i]; cbn [nth_error] in Hc, Hv.
    + injection Hc as ->. injection Hv as ->. rewrite Hnn. discriminate.
    + destruct (col_not_null c0 && is_null v0); [discriminate | ].
      now apply (IH vs i).
Qed.

(** A NOT NULL column without a DEFAULT has to be named and given a value:
    otherwise no row is stored. *)
Lemma missing_required_never_stored (enforce : bool) (now : string)
  (db : database) (tname : string) (t : table) (cols : list string)
  (vals : list value) (i : nat) (c : column) :
  lookup_table db tname = Some t ->
  nth_error (tbl_columns (tbl_schema t)) i = Some c ->
  col_not_null c = true -> col_default c = None ->
  primary_key_index (tbl_schema t) <> Some i ->
  binding (col_name c) cols vals = None
  \/ binding (col_name c) cols vals = Some VNull ->
  exists err, insert_row enforce now db tname cols vals = Err err.
Proof.
  intros Hfind Hc Hnn Hdef Hkey Hbinds.
  destruct (insert_row enforce now db tname cols vals)
    as [[db' r] | err] eqn:Hins; [exfalso | now exists err].
  apply (insert_row_at _ _ _ _ _ _ _ _ t Hfind) in Hins
    as (bound & Hbound & Hstore).
  apply store_row_ok in Hstore as (Hassign & Hnull & _).
  assert (Hcell : nth_error (cells r) i = Some VNull).
  { rewrite (assign_rowid_keeps _ _ _ _ _ i Hassign Hkey).
    rewrite (new_cells_nth now _ cols bound i c Hc).
    destruct Hbinds as [Hnone | Hsome].
    - rewrite (binding_none_adapt _ cols vals bound Hbound Hnone).
      unfold default_value. rewrite Hdef. now rewrite stored_as_null.
    - destruct (binding_adapt _ cols vals bound _ Hbound Hsome)
        as (v' & Hadapt & ->).
      cbn [adapt] in Hadapt. injection Hadapt as <-.
      now rewrite stored_as_null. }
  exact (check_not_null_rejects _ _ _ i c Hc Hcell Hnn Hnull).
Qed.

(** A row that brings its key has to bring a new one. *)
Lemma taken_key_never_stored (enforce : bool) (now : string)
  (db : database) (tname : string) (t : table) (cols : list string)
  (vals : list value) (k : Z) :
  lookup_table db tname = Some t ->
  key_binding (tbl_schema t) cols vals = Some (VInt k) ->
  In k (map rowid (tbl_rows t)) ->
  exists err, insert_row enforce now db tname cols vals = Err err.
Proof.
  intros Hfind Hbinds Hin.
  destruct (insert_row enforce now db tname cols vals)
    as [[db' r] | err] eqn:Hins; [exfalso | now exists err].
  apply (insert_row_at _ _ _ _ _ _ _ _ t Hfind) in Hins
    as (bound & Hbound & Hstore).
  pose proof (key_binding_adapt (tbl_schema t) cols vals bound Hbound)
    as Hkey.
  rewrite Hbinds in Hkey. destruct Hkey as (v' & Hadapt & Hbinds').
  assert (Hv' : v' = VInt k).
  { cbn [adapt] in Hadapt.
    destruct (_ && _) in Hadapt; [now injection Hadapt | discriminate]. }
  subst v'.
  apply store_row_ok in Hstore as (Hassign & _ & Hunique & _).
  rewrite Hbinds' in Hassign.
  apply assign_rowid_given in Hassign.
  unfold check_rowid_unique in Hunique.
  assert (Htaken : existsb (fun r0 => Z.eqb (rowid r0) (rowid r))
                     (tbl_rows t) = true).
  { apply existsb_exists. apply in_map_iff in Hin as (r0 & Hr0 & Hin).
    exists r0. split; [exact Hin | ]. apply Z.eqb_eq. congruence. }
  rewrite Htaken in Hunique. discriminate.
Qed.

(** ** The other defaults *)

(** X6: under the script's schemas a column that the column list of the
    INSERT does not name, under whatever case of its letters, holds its
    default in the stored row, in any state of the database: [role] is
    'user', [category] is NULL, and [created_at] and [ordered_at] are the
    time of the INSERT. *)
Theorem unnamed_columns_take_defaults (enforce : bool) (now : string)
  (db db' : database) (tname : string) (t : table) (cols : list string)
  (vals : list value) (r : row) (cname : string) (expected : value) :
  lookup_table db tname = Some t ->
  In (tbl_schema t, cname, expected)
     [ (users_schema, "role", VText "user");
       (users_schema, "created_at", VText now);
       (products_schema, "category", VNull);
       (orders_schema, "ordered_at", VText now) ] ->
  names_column cols cname = false ->
  insert_row enforce now db tname cols vals = Ok (db', r) ->
  cell (tbl_schema t) cname r = Some expected.
Proof.
  intros Hfind Hwhich Hnot Hins. cbn [In] in Hwhich.
  destruct Hwhich as [E | [E | [E | [E | []]]]];
    injection E as Hschema <- <-; rewrite <- Hschema.
  - change (cell users_schema "role" r) with (nth_error (cells r) 3).
    rewrite (insert_row_default _ _ _ _ _ _ _ _ _ 3%nat
               {| col_name := "role"; col_type := "TEXT";
                  col_constraints := [DEFAULT (Literal (VText "user"))] |}
               Hfind Hins);
      rewrite <- ?Hschema; try reflexivity; try assumption.
    vm_compute. discriminate.
  - change (cell users_schema "created_at" r)
      with (nth_error (cells r) 4).
    rewrite (insert_row_default _ _ _ _ _ _ _ _ _ 4%nat
               {| col_name := "created_at"; col_type := "TIMESTAMP";
                  col_constraints := [DEFAULT CURRENT_TIMESTAMP] |}
               Hfind Hins);
      rewrite <- ?Hschema; try reflexivity; try assumption.
    vm_compute. discriminate.
  - change (cell products_schema "category" r)
      with (nth_error (cells r) 4).
    rewrite (insert_row_default _ _ _ _ _ _ _ _ _ 4%nat
               {| col_name := "category"; col_type := "TEXT";
                  col_constraints := [] |}
               Hfind Hins);
      rewrite <- ?Hschema; try reflexivity; try assumption.
    vm_compute. discriminate.
  - change (cell orders_schema "ordered_at" r)
      with (nth_error (cells r) 5).
    rewrite (insert_row_default _ _ _ _ _ _ _ _ _ 5%nat
               {| col_name := "ordered_at"; col_type := "TIMESTAMP";
                  col_constraints := [DEFAULT CURRENT_TIMESTAMP] |}
               Hfind Hins);
      rewrite <- ?Hschema; try reflexivity; try assumption.
    vm_compute. discriminate.
Qed.

Lemma unnamed_columns_take_defaults_witness :
  exists db' r,
    insert_row false "2025-01-02 03:04:05" (fixture (run_time world0))
      "Users" ["Name"; "EMAIL"]
      [VText "Frank Castle"; VText "frank@example.com"] = Ok (db', r) /\
    rowid r = 6 /\
    cell users_schema "name" r = Some (VText "Frank Castle") /\
    cell users_schema "role" r = Some (VText "user") /\
    cell users_schema "created_at" r = Some (VText "2025-01-02 03:04:05").
Proof.
  pose (t := {| tbl_schema := users_schema;
                tbl_rows := stored 1 3 (Some (run_time world0)) users;
                tbl_seq := 5 |}).
  destruct (insert_row false "2025-01-02 03:04:05"
              (fixture (run_time world0)) "Users" ["Name"; "EMAIL"]
              [VText "Frank Castle"; VText "frank@example.com"])
    as [[db' r] | e] eqn:Hins; [ | vm_compute in Hins; discriminate Hins].
  exists db', r. split; [reflexivity | ].
  pose proof (unnamed_columns_take_defaults false "2025-01-02 03:04:05"
                (fixture (run_time world0)) db' "Users" t
                ["Name"; "EMAIL"]
                [VText "Frank Castle"; VText "frank@example.com"] r
                "role" (VText "user") eq_refl
                (or_introl eq_refl) eq_refl Hins) as Hrole.
  pose proof (unnamed_columns_take_defaults false "2025-01-02 03:04:05"
                (fixture (run_time world0)) db' "Users" t
                ["Name"; "EMAIL"]
                [VText "Frank Castle"; VText "frank@example.com"] r
                "created_at" (VText "2025-01-02 03:04:05") eq_refl
                (or_intror (or_introl eq_refl)) eq_refl Hins) as Hcreated.
  vm_compute in Hins. injection Hins as _ <-.
  repeat split; assumption.
Defined.

(** ** Required columns *)

(** X7: under the script's schemas the NOT NULL columns have to be given:
    an INSERT that binds nothing to one of them, or binds [None] to it,
    stores no row, in any state of the database.  What the INSERT binds to
    a column is the value under the first entry of its column list that
    names the column, in whatever case. *)
Theorem required_columns_enforced (enforce : bool) (now : string)
  (db : database) (tname : string) (t : table) (cols : list string)
  (vals : list value) (cname : string) :
  lookup_table db tname = Some t ->
  In (tbl_schema t, cname)
     [ (users_schema, "name"); (users_schema, "email");
       (products_schema, "name"); (products_schema, "price");
       (orders_schema, "user_id"); (orders_schema, "product_id");
       (orders_schema, "quantity") ] ->
  binding cname cols vals = None \/ binding cname cols vals = Some VNull ->
  exists err, insert_row enforce now db tname cols vals = Err err.
Proof.
  intros Hfind Hwhich Hbinds. cbn [In] in Hwhich.
  destruct Hwhich as [E | [E | [E | [E | [E | [E | [E | []]]]]]]];
    injection E as Hschema <-.
  - apply (missing_required_never_stored enforce now db tname t cols vals
             1 {| col_name := "name"; col_type := "TEXT";
                  col_constraints := [NOT_NULL] |} Hfind);
      rewrite <- ?Hschema; try reflexivity; try assumption.
    vm_compute. discriminate.
  - apply (missing_required_never_stored enforce now db tname t cols vals
             2 {| col_name := "email"; col_type := "TEXT";
                  col_constraints := [UNIQUE; NOT_NULL] |} Hfind);
      rewrite <- ?Hschema; try reflexivity; try assumption.
    vm_compute. discriminate.
  - apply (missing_required_never_stored enforce now db tname t cols vals
             1 {| col_name := "name"; col_type := "TEXT";
                  col_constraints := [NOT_NULL] |} Hfind);
      rewrite <- ?Hschema; try reflexivity; try assumption.
    vm_compute. discriminate.
  - apply (missing_required_never_stored enforce now db tname t cols vals
             2 {| col_name := "price"; col_type := "REAL";
                  col_constraints := [NOT_NULL] |} Hfind);
      rewrite <- ?Hschema; try reflexivity; try assumption.
    vm_compute. discriminate.
  - apply (missing_required_never_stored enforce now db tname t cols vals
             1 {| col_name := "user_id"; col_type := "INTEGER";
                  col_constraints := [NOT_NULL] |} Hfind);
      rewrite <- ?Hschema; try reflexivity; try assumption.
    vm_compute. discriminate.
  - apply (missing_required_never_stored enforce now db tname t cols vals
             2 {| col_name := "product_id"; col_type := "INTEGER";
                  col_constraints := [NOT_NULL] |} Hfind);
      rewrite <- ?Hschema; try reflexivity; try assumption.
    vm_compute. discriminate.
  - apply (missing_required_never_stored enforce now db tname t cols vals
             3 {| col_name := "quantity"; col_type := "INTEGER";
                  col_constraints := [NOT_NULL] |} Hfind);
      rewrite <- ?Hschema; try reflexivity; try assumption.
    vm_compute. discriminate.
Qed.

Lemma required_columns_enforced_witness :
  (exists err,
     insert_row false "2025-01-02 03:04:05" (fixture (run_time world0))
       "users" ["email"; "role"] [VText "grace@example.com"; VText "user"]
     = Err err) /\
  insert_row false "2025-01-02 03:04:05" (fixture (run_time world0))
    "users" ["email"; "role"] [VText "grace@example.com"; VText "user"]
  = Err (IntegrityError "NOT NULL constraint failed: users.name") /\
  (exists err,
     insert_row false "2025-01-02 03:04:05" (fixture (run_time world0))
       "products" ["name"; "PRICE"] [VText "Ghost"; VNull] = Err err) /\
  insert_row false "2025-01-02 03:04:05" (fixture (run_time world0))
    "products" ["name"; "PRICE"] [VText "Ghost"; VNull]
  = Err (IntegrityError "NOT NULL constraint failed: products.price") /\
  exists db' r,
    insert_row false "2025-01-02 03:04:05" (fixture (run_time world0))
      "users" ["NAME"; "EMAIL"] [VText "Zed"; VText "zed@example.com"]
    = Ok (db', r) /\
    cells r = [VInt 6; VText "Zed"; VText "zed@example.com"; VText "user";
               VText "2025-01-02 03:04:05"].
Proof.
  split; [ | split; [vm_compute; reflexivity | split;
                     [ | split; [vm_compute; reflexivity | ]]]].
  - apply (required_columns_enforced false _ (fixture (run_time world0))
             "users"
             {| tbl_schema := users_schema;
                tbl_rows := stored 1 3 (Some (run_time world0)) users;
                tbl_seq := 5 |} _ _ "name");
      [reflexivity | cbn [In]; tauto | left; reflexivity].
  - apply (required_columns_enforced false _ (fixture (run_time world0))
             "products"
             {| tbl_schema := products_schema;
                tbl_rows := stored 1 8 None products;
                tbl_seq := 8 |} _ _ "price");
      [reflexivity | cbn [In]; tauto | right; reflexivity].
  - destruct (insert_row false "2025-01-02 03:04:05"
                (fixture (run_time world0)) "users" ["NAME"; "EMAIL"]
                [VText "Zed"; VText "zed@example.com"])
      as [[db' r] | e] eqn:Hins; [ | vm_compute in Hins; discriminate Hins].
    exists db', r. split; [reflexivity | ].
    vm_compute in Hins. now injection Hins as _ <-.
Defined.

(** ** Keys *)

(** The rowid of the new row is what the last entry of the column list
    that names it brings: an INSERT that names [id] twice, first with the
    id of a stored row, then with a new one, stores its row under the new
    one. *)
Lemma last_named_key_counts :
  binding "id" ["id"; "id"; "name"; "email"]
    [VInt 3; VInt 100; VText "Heidi"; VText "heidi@example.com"]
  = Some (VInt 3) /\
  key_binding users_schema ["id"; "id"; "name"; "email"]
    [VInt 3; VInt 100; VText "Heidi"; VText "heidi@example.com"]
  = Some (VInt 100) /\
  exists db' r,
    insert_row false "2025-01-02 03:04:05" (fixture (run_time world0))
      "users" ["id"; "id"; "name"; "email"]
      [VInt 3; VInt 100; VText "Heidi"; VText "heidi@example.com"]
    = Ok (db', r) /\
    rowid r = 100 /\
    cell users_schema "id" r = Some (VInt 100).
Proof.
  split; [reflexivity | ]. split; [reflexivity | ].
  destruct (insert_row false "2025-01-02 03:04:05"
              (fixture (run_time world0)) "users"
              ["id"; "id"; "name"; "email"]
              [VInt 3; VInt 100; VText "Heidi"; VText "heidi@example.com"])
    as [[db' r] | e] eqn:Hins; [ | vm_compute in Hins; discriminate Hins].
  exists db', r. split; [reflexivity | ].
  vm_compute in Hins. injection Hins as _ <-. now split.
Qed.

(** X8: under the script's schemas an INSERT that brings as its key the
    [id] of a row the table already has stores no row, in any state of the
    database.  The key an INSERT brings is the value under the last entry
    of its column list that names it, as [id] in whatever case or as
    [rowid], [oid] or [_rowid_]. *)
Theorem explicit_id_must_be_new (enforce : bool) (now : string)
  (db : database) (tname : string) (t : table) (cols : list string)
  (vals : list value) (k : Z) :
  lookup_table db tname = Some t ->
  In (tbl_schema t) [users_schema; products_schema; orders_schema] ->
  key_binding (tbl_schema t) cols vals = Some (VInt k) ->
  In k (map rowid (tbl_rows t)) ->
  exists err, insert_row enforce now db tname cols vals = Err err.
Proof.
  intros Hfind _ Hbinds Hin.
  exact (taken_key_never_stored enforce now db tname t cols vals k
           Hfind Hbinds Hin).
Qed.

Lemma explicit_id_must_be_new_witness :
  (exists err,
     insert_row false "2025-01-02 03:04:05" (fixture (run_time world0))
       "users" ["id"; "name"; "email"]
       [VInt 3; VText "Heidi"; VText "heidi@example.com"] = Err err) /\
  insert_row false "2025-01-02 03:04:05" (fixture (run_time world0))
    "users" ["id"; "name"; "email"]
    [VInt 3; VText "Heidi"; VText "heidi@example.com"]
  = Err (IntegrityError "UNIQUE constraint failed: users.id") /\
  (exists err,
     insert_row false "2025-01-02 03:04:05" (fixture (run_time world0))
       "users" ["id"; "RowId"; "name"; "email"]
       [VInt 100; VInt 3; VText "Heidi"; VText "heidi@example.com"]
     = Err err) /\
  exists db' r,
    insert_row false "2025-01-02 03:04:05" (fixture (run_time world0))
      "users" ["id"; "name"; "email"]
      [VInt 30; VText "Heidi"; VText "heidi@example.com"] = Ok (db', r) /\
    rowid r = 30 /\ sqlite_sequence db' = [("users", 30); ("products", 8);
                                           ("orders", 8)].
Proof.
  split; [ | split; [vm_compute; reflexivity | split]].
  - apply (explicit_id_must_be_new false _ (fixture (run_time world0))
             "users"
             {| tbl_schema := users_schema;
                tbl_rows := stored 1 3 (Some (run_time world0)) users;
                tbl_seq := 5 |} _ _ 3);
      [reflexivity | cbn [In]; tauto | reflexivity | cbn; tauto].
  - apply (explicit_id_must_be_new false _ (fixture (run_time world0))
             "users"
             {| tbl_schema := users_schema;
                tbl_rows := stored 1 3 (Some (run_time world0)) users;
                tbl_seq := 5 |} _ _ 3);
      [reflexivity | cbn [In]; tauto | reflexivity | cbn; tauto].
  - destruct (insert_row false "2025-01-02 03:04:05"
                (fixture (run_time world0)) "users" ["id"; "name"; "email"]
                [VInt 30; VText "Heidi"; VText "heidi@example.com"])
      as [[db' r] | e] eqn:Hins; [ | vm_compute in Hins; discriminate Hins].
    exists db', r. split; [reflexivity | ].
    vm_compute in Hins. injection Hins as <- <-.
    split; [reflexivity | vm_compute; reflexivity].
Defined.

(** ** Foreign keys, enforced *)

Lemma insert_later_enforcing_returns (w : world) (db db' : database)
  (tname : string) (cols : list string) (params : list value) (r : row) :
  db_file w = RegularFile (SqliteFile db) ->
  insert_row true (clock w (S (executed w))) db tname cols params
    = Ok (db', r) ->
  exists w'',
    insert_later_enforcing (INSERT_INTO tname cols) params w
    = Returned tt w'' /\
    db_file w'' = RegularFile (SqliteFile db').
Proof.
  destruct w as [dir file clk n c out lg]. cbn [db_file clock executed].
  intros -> Hins.
  unfold insert_later_enforcing, sqlite3_connect, conn_cursor,
    cursor_execute, run_statement, no_parameters, begin_if_needed,
    statement_time, current_database, the_connection, store_database,
    conn_commit, conn_close, bind, modify, get, ret.
  cbn. rewrite Hins. eexists. split; reflexivity.
Qed.

Lemma insert_later_enforcing_raises (w : world) (db : database)
  (tname : string) (cols : list string) (params : list value) (e : exn) :
  db_file w = RegularFile (SqliteFile db) ->
  insert_row true (clock w (S (executed w))) db tname cols params = Err e ->
  exists w'',
    insert_later_enforcing (INSERT_INTO tname cols) params w
    = Raised e w'' /\
    db_file w'' = db_file w.
Proof.
  destruct w as [dir file clk n c out lg]. cbn [db_file clock executed].
  intros -> Hins.
  unfold insert_later_enforcing, sqlite3_connect, conn_cursor,
    cursor_execute, run_statement, no_parameters, begin_if_needed,
    statement_time, current_database, the_connection, store_database,
    conn_commit, conn_close, bind, modify, get, ret.
  cbn. rewrite Hins. eexists. split; reflexivity.
Qed.

(** The ids the users and the products of the fixture hold. *)
Lemma fixture_holds_user (at_step : nat -> string) (u : Z) :
  column_holds (stored 1 3 (Some at_step) users) 0 (VInt u) = true
  <-> In [VInt u] (ids 5).
Proof.
  split.
  - unfold column_holds. cbn [is_null negb andb].
    intros Hheld. apply existsb_exists in Hheld as (r & Hin & Heq).
    cbn in Hin.
    repeat (destruct Hin as [<- | Hin];
            [cbn [nth_error cells value_eqb] in Heq;
             apply Z.eqb_eq in Heq; subst u; cbn; tauto | ]).
    contradiction.
  - cbn. intros [E | [E | [E | [E | [E | []]]]]];
      injection E as <-; vm_compute; reflexivity.
Qed.

Lemma fixture_holds_product (u : Z) :
  column_holds (stored 1 8 None products) 0 (VInt u) = true
  <-> In [VInt u] (ids 8).
Proof.
  split.
  - unfold column_holds. cbn [is_null negb andb].
    intros Hheld. apply existsb_exists in Hheld as (r & Hin & Heq).
    cbn in Hin.
    repeat (destruct Hin as [<- | Hin];
            [cbn [nth_error cells value_eqb] in Heq;
             apply Z.eqb_eq in Heq; subst u; cbn; tauto | ]).
    contradiction.
  - cbn. intros [E | [E | [E | [E | [E | [E | [E | [E | []]]]]]]]];
      injection E as <-; vm_compute; reflexivity.
Qed.

(** Enforcement adds the check of the foreign keys and nothing else. *)
Lemma store_row_enforcing (now : string) (db : database) (t : table)
  (cols : list string) (vals : list value) :
  store_row true now db t cols vals
  = match store_row false now db t cols vals with
    | Ok (db', r) =>
        if forallb (foreign_key_holds db (tbl_schema t) (cells r))
             (tbl_foreign_keys (tbl_schema t))
        then Ok (db', r)
        else Err (IntegrityError "FOREIGN KEY constraint failed")
    | Err e => Err e
    end.
Proof.
  unfold store_row.
  destruct (assign_rowid t _ _) as [[id vs] | ]; [ | reflexivity].
  cbn [and_then].
  destruct (check_not_null _ _ _) as [[] | ]; [ | reflexivity].
  destruct (check_rowid_unique _ _) as [[] | ]; [ | reflexivity].
  destruct (check_unique _ _ _ _ _) as [[] | ]; [ | reflexivity].
  unfold check_foreign_keys. cbn [andb and_then cells].
  destruct (forallb _ _); reflexivity.
Qed.

(** The script's INSERT of an order, on a connection that enforces. *)
Lemma order_checked (at_step : nat -> string) (now : string)
  (u p q : Z) (status : string) :
  int64 u -> int64 p -> int64 q ->
  exists db' r,
    insert_row false now (fixture at_step) "orders"
      ["user_id"; "product_id"; "quantity"; "status"]
      [VInt u; VInt p; VInt q; VText status] = Ok (db', r) /\
    select db' order_columns "orders"
    = Some (numbered 1 orders
              ++ [[VInt 9; VInt u; VInt p; VInt q; VText status]]) /\
    insert_row true now (fixture at_step) "orders"
      ["user_id"; "product_id"; "quantity"; "status"]
      [VInt u; VInt p; VInt q; VText status]
    = if column_holds (stored 1 3 (Some at_step) users) 0 (VInt u)
         && column_holds (stored 1 8 None products) 0 (VInt p)
      then Ok (db', r)
      else Err (IntegrityError "FOREIGN KEY constraint failed").
Proof.
  intros Hu Hp Hq.
  assert (Hbound : adapt_all [VInt u; VInt p; VInt q; VText status]
                   = Ok [VInt u; VInt p; VInt q; VText status]).
  { cbn [adapt_all]. rewrite (adapt_int64 u Hu), (adapt_int64 p Hp),
      (adapt_int64 q Hq). reflexivity. }
  pose (cols := ["user_id"; "product_id"; "quantity"; "status"]).
  assert (Hcompiled : forall enforce,
            insert_row enforce now (fixture at_step) "orders" cols
              [VInt u; VInt p; VInt q; VText status]
            = store_row enforce now (fixture at_step)
                {| tbl_schema := orders_schema;
                   tbl_rows := stored 1 16 (Some at_step) orders;
                   tbl_seq := 8 |} cols
                [VInt u; VInt p; VInt q; VText status]).
  { intros enforce.
    now apply (insert_row_compiled enforce now (fixture at_step) "orders"
                 cols _ _ _ (fixture_orders_table at_step)). }
  fold cols. do 2 eexists.
  rewrite !Hcompiled, store_row_enforcing.
  split; [lazy; reflexivity | ].
  split; [vm_compute; reflexivity | ].
  match goal with
  | |- match ?res with _ => _ end = _ =>
      let v := eval lazy in res in change res with v
  end.
  cbn beta iota.
  match goal with
  | |- (if ?b then _ else _) = _ =>
      change b with
        (column_holds (stored 1 3 (Some at_step) users) 0 (VInt u)
         && (column_holds (stored 1 8 None products) 0 (VInt p) && true))
  end.
  rewrite andb_true_r. reflexivity.
Qed.

(** X9: the two FOREIGN KEY clauses of [orders] take effect in a session
    that turns the pragma on.  After the run, the script's INSERT of an
    order then goes in when its [user_id] and [product_id] are ids of the
    fixture, and raises the foreign-key violation, leaving the file as it
    was, when one of them is not. *)
Theorem foreign_keys_checked_on_request (w w' : world) (u p q : Z)
  (status : string) :
  create_database w = Returned tt w' ->
  int64 u -> int64 p -> int64 q ->
  (In [VInt u] (ids 5) /\ In [VInt p] (ids 8) ->
   exists w'' db'',
     insert_later_enforcing insert_orders
       [VInt u; VInt p; VInt q; VText status] w' = Returned tt w'' /\
     db_file w'' = RegularFile (SqliteFile db'') /\
     select db'' order_columns "orders"
     = Some (numbered 1 orders
               ++ [[VInt 9; VInt u; VInt p; VInt q; VText status]])) /\
  (~ In [VInt u] (ids 5) \/ ~ In [VInt p] (ids 8) ->
   exists w'',
     insert_later_enforcing insert_orders
       [VInt u; VInt p; VInt q; VText status] w'
     = Raised (IntegrityError "FOREIGN KEY constraint failed") w'' /\
     db_file w'' = db_file w').
Proof.
  intros Hrun Hu Hp Hq.
  pose proof (successful_run_file w w' Hrun) as Hfile.
  destruct (order_checked (run_time w) (clock w' (S (executed w')))
              u p q status Hu Hp Hq) as (db' & r & _ & Hsel & Hins).
  split.
  - intros [Huser Hproduct].
    apply (fixture_holds_user (run_time w)) in Huser.
    apply fixture_holds_product in Hproduct.
    rewrite Huser, Hproduct in Hins. cbn [andb] in Hins.
    destruct (insert_later_enforcing_returns w' _ db' _ _ _ r Hfile Hins)
      as (w'' & Hret & Hfile'').
    now exists w'', db'.
  - intros Hdangling.
    assert (Hheld : column_holds (stored 1 3 (Some (run_time w)) users) 0
                      (VInt u)
                    && column_holds (stored 1 8 None products) 0 (VInt p)
                    = false).
    { apply andb_false_iff.
      destruct Hdangling as [Hno | Hno]; [left | right].
      - destruct (column_holds _ 0 (VInt u)) eqn:Hheld; [ | reflexivity].
        exfalso. apply Hno. now apply (fixture_holds_user (run_time w)).
      - destruct (column_holds _ 0 (VInt p)) eqn:Hheld; [ | reflexivity].
        exfalso. apply Hno. now apply fixture_holds_product. }
    rewrite Hheld in Hins.
    exact (insert_later_enforcing_raises w' _ _ _ _ _ Hfile Hins).
Qed.

Lemma foreign_keys_checked_on_request_witness :
  create_database world0 = Returned tt (after_run world0) /\
  (exists w'' db'',
     insert_later_enforcing insert_orders
       [VInt 4; VInt 7; VInt 2; VText "pending"] (after_run world0)
     = Returned tt w'' /\
     db_file w'' = RegularFile (SqliteFile db'') /\
     select db'' order_columns "orders"
     = Some (numbered 1 orders
               ++ [[VInt 9; VInt 4; VInt 7; VInt 2; VText "pending"]])) /\
  (exists w'',
     insert_later_enforcing insert_orders
       [VInt 4; VInt 9; VInt 2; VText "pending"] (after_run world0)
     = Raised (IntegrityError "FOREIGN KEY constraint failed") w'' /\
     db_file w'' = db_file (after_run world0)).
Proof.
  assert (Hrun : create_database world0 = Returned tt (after_run world0))
    by (vm_compute; reflexivity).
  assert (Hint : forall n, 0 <= n <= 9 -> int64 n)
    by (unfold int64, int64_min, int64_max; intros n Hn; lia).
  split; [exact Hrun | ]. split.
  - apply (foreign_keys_checked_on_request world0 (after_run world0)
             4 7 2 "pending" Hrun); try (apply Hint; lia).
    split; cbn; tauto.
  - apply (foreign_keys_checked_on_request world0 (after_run world0)
             4 9 2 "pending" Hrun); try (apply Hint; lia).
    right. cbn. intuition discriminate.
Defined.

(** ** Creating a table twice *)

Lemma create_table_taken (db : database) (s : table_schema) :
  In (tbl_name s) (table_names db) ->
  create_table db s
  = Err (OperationalError ("table " ++ tbl_name s ++ " already exists")).
Proof.
  intros Hin. unfold create_table.
  destruct (find_table db (tbl_name s)) eqn:Hfind;
    [now rewrite (lookup_found _ _ _ Hfind) | ].
  exfalso. unfold table_names in Hin.
  apply in_map_iff in Hin as (t & Hname & Hin).
  apply (find_none _ _ Hfind) in Hin.
  unfold table_named in Hin. rewrite Hname, String.eqb_refl in Hin.
  discriminate.
Qed.

Lemma create_later_raises (w : world) (db : database) (s : table_schema)
  (e : exn) :
  db_file w = RegularFile (SqliteFile db) ->
  create_table db s = Err e ->
  exists w'',
    create_later s w = Raised e w'' /\ db_file w'' = db_file w.
Proof.
  destruct w as [dir file clk n c out lg]. cbn [db_file].
  intros -> Hcreate.
  unfold create_later, sqlite3_connect, conn_cursor, cursor_execute,
    run_statement, no_parameters, statement_time, current_database,
    the_connection, store_database, conn_commit, conn_close, bind, modify,
    get, ret.
  cbn. rewrite Hcreate. eexists. split; reflexivity.
Qed.

(** X10: the CREATE TABLE statements create, they do not replace: on the
    file a run has left, a session that issues a CREATE TABLE for [users],
    [products] or [orders] again, with whatever columns, raises "table ...
    already exists" and leaves the file as it was.  So the script can run
    again only because it removes the file first. *)
Theorem tables_are_not_created_twice (w w' : world) (s : table_schema) :
  create_database w = Returned tt w' ->
  In (tbl_name s) ["users"; "products"; "orders"] ->
  exists w'',
    create_later s w'
    = Raised (OperationalError
                ("table " ++ tbl_name s ++ " already exists")) w'' /\
    db_file w'' = db_file w'.
Proof.
  intros Hrun Hname.
  apply (create_later_raises w' (fixture (run_time w)));
    [exact (successful_run_file w w' Hrun) | ].
  now apply create_table_taken.
Qed.

Lemma tables_are_not_created_twice_witness :
  create_database world0 = Returned tt (after_run world0) /\
  exists w'',
    create_later users_schema (after_run world0)
    = Raised (OperationalError "table users already exists") w'' /\
    db_file w'' = db_file (after_run world0).
Proof.
  assert (Hrun : create_database world0 = Returned tt (after_run world0))
    by (vm_compute; reflexivity).
  split; [exact Hrun | ].
  apply (tables_are_not_created_twice world0 (after_run world0)
           users_schema Hrun).
  cbn. tauto.
Defined.

(** ** The users table stays consistent *)

Lemma find_replace_other (db : database) (t' : table) (name : string) :
  tbl_name (tbl_schema t') <> name ->
  find_table (replace_table db t') name = find_table db name.
Proof.
  intros Hother. unfold find_table.
  induction db as [ | u db IH]; [reflexivity | ].
  cbn [replace_table].
  destruct (table_named (tbl_name (tbl_schema t')) u) eqn:Hu.
  - cbn [find]. unfold table_named in *.
    apply String.eqb_eq in Hu.
    destruct (String.eqb_spec (tbl_name (tbl_schema t')) name) as [E | _];
      [contradiction | ].
    destruct (String.eqb_spec (tbl_name (tbl_schema u)) name) as [E | _];
      [congruence | reflexivity].
  - cbn [find]. now rewrite IH.
Qed.

Lemma NoDup_snoc {A : Type} (l : list A) (x : A) :
  NoDup l -> ~ In x l -> NoDup (l ++ [x]).
Proof.
  intros Hl Hx. apply NoDup_app; [exact Hl | repeat constructor; tauto | ].
  intros a Ha [<- | []]. contradiction.
Qed.

Lemma new_rowid_not_held (t : table) (id : Z) :
  check_rowid_unique t id = Ok tt -> ~ In id (map rowid (tbl_rows t)).
Proof.
  unfold check_rowid_unique.
  destruct (existsb _ _) eqn:Hheld; [discriminate | ].
  intros _ Hin. apply in_map_iff in Hin as (r & Hid & Hin).
  assert (Htrue : existsb (fun r0 => Z.eqb (rowid r0) id) (tbl_rows t)
                  = true).
  { apply existsb_exists. exists r. split; [exact Hin | ].
    now apply Z.eqb_eq. }
  congruence.
Qed.

Lemma text_held (rows : list row) (i : nat) (e : string) :
  In e (text_cells i rows) -> column_holds rows i (VText e) = true.
Proof.
  unfold text_cells, column_holds. cbn [is_null negb andb].
  intros Hin. apply in_flat_map in Hin as (r & Hr & He).
  apply existsb_exists. exists r. split; [exact Hr | ].
  destruct (nth_error (cells r) i) as [[ | | | s] | ];
    try contradiction.
  destruct He as [<- | []]. cbn [value_eqb]. apply String.eqb_refl.
Qed.

Lemma fixture_users_consistent (at_step : nat -> string) :
  users_consistent (fixture at_step).
Proof.
  exists {| tbl_schema := users_schema;
            tbl_rows := stored 1 3 (Some at_step) users;
            tbl_seq := 5 |}.
  split; [reflexivity | ]. split; [reflexivity | ].
  split; cbn; repeat constructor; cbn [In]; intuition discriminate.
Qed.

Lemma store_row_keeps_users (enforce : bool) (now : string)
  (db db' : database) (tname : string) (t0 : table) (cols : list string)
  (vals : list value) (r : row) :
  users_consistent db ->
  find_table db tname = Some t0 ->
  store_row enforce now db t0 cols vals = Ok (db', r) ->
  users_consistent db'.
Proof.
  intros (t & Hfind & Hschema & Hids & Hemails) Hfind0 Hstore.
  pose proof (find_table_name db tname t0 Hfind0) as Hname.
  pose proof Hstore as Hchecks.
  apply store_row_ok in Hchecks as (_ & _ & Hkey & Huniq & _ & Hdb').
  destruct (String.eqb_spec tname "users") as [-> | Hother].
  - rewrite Hfind in Hfind0. injection Hfind0 as <-.
    destruct (store_row_appends _ _ _ _ _ _ _ _ _ Hfind Hstore)
      as (t' & Hfind' & Hschema' & Hrows').
    exists t'. split; [exact Hfind' | ].
    split; [congruence | ]. rewrite Hrows'. split.
    + rewrite map_app. apply NoDup_snoc; [exact Hids | ].
      now apply new_rowid_not_held.
    + unfold text_cells. rewrite flat_map_app. cbn [flat_map].
      rewrite app_nil_r.
      destruct (nth_error (cells r) 2) as [[ | | | e] | ] eqn:Hcell;
        rewrite ?app_nil_r; try exact Hemails.
      apply NoDup_snoc; [exact Hemails | ].
      intros Hin. apply text_held in Hin.
      revert Huniq. rewrite Hschema.
      apply (check_unique_rejects "users" _ (tbl_columns users_schema)
               (cells r) 0 2
               {| col_name := "email"; col_type := "TEXT";
                  col_constraints := [UNIQUE; NOT_NULL] |}
               (VText e)); [reflexivity | exact Hcell | reflexivity
                            | exact Hin].
  - exists t. rewrite Hdb'.
    rewrite find_replace_other by (cbn [tbl_schema]; congruence).
    now repeat split.
Qed.

(** X11: the file a run leaves has a [users] table under the script's
    schema in which no two rows have the same id and no two the same
    email, and every INSERT that stores a row, into whichever table and
    with whatever columns and values, keeps it so. *)
Theorem users_stay_consistent :
  (forall w w',
     create_database w = Returned tt w' ->
     exists db, db_file w' = RegularFile (SqliteFile db) /\
                users_consistent db) /\
  (forall enforce now db db' tname cols vals r,
     users_consistent db ->
     insert_row enforce now db tname cols vals = Ok (db', r) ->
     users_consistent db').
Proof.
  split.
  - intros w w' Hrun. exists (fixture (run_time w)).
    split; [exact (successful_run_file w w' Hrun) | ].
    apply fixture_users_consistent.
  - intros enforce now db db' tname cols vals r Hok Hins.
    apply insert_row_ok in Hins as (t0 & bound & Hfind0 & _ & Hstore).
    apply lookup_table_name in Hfind0.
    exact (store_row_keeps_users _ _ _ _ _ _ _ _ _ Hok Hfind0 Hstore).
Qed.

Lemma users_stay_consistent_witness :
  create_database world0 = Returned tt (after_run world0) /\
  exists db' r,
    insert_row false "2025-01-02 03:04:05" (fixture (run_time world0))
      "users" ["name"; "email"]
      [VText "Frank Castle"; VText "frank@example.com"] = Ok (db', r) /\
    users_consistent db'.
Proof.
  assert (Hrun : create_database world0 = Returned tt (after_run world0))
    by (vm_compute; reflexivity).
  destruct users_stay_consistent as (Hafter & Hkept).
  destruct (Hafter world0 (after_run world0) Hrun) as (db & Hfile & Hdb).
  injection Hfile as <-.
  split; [exact Hrun | ].
  destruct (insert_row false "2025-01-02 03:04:05"
              (fixture (run_time world0)) "users" ["name"; "email"]
              [VText "Frank Castle"; VText "frank@example.com"])
    as [[db' r] | e] eqn:Hins.
  - exists db', r. split; [reflexivity | ].
    exact (Hkept _ _ _ _ _ _ _ _ Hdb Hins).
  - exfalso. vm_compute in Hins. discriminate Hins.
Defined.

(** ** Ids the engine assigns *)

Lemma max_rowid_bounds (rows : list row) (r : row) :
  In r rows -> rowid r <= max_rowid rows.
Proof.
  destruct rows as [ | r0 rest]; [contradiction | ].
  cbn [max_rowid].
  assert (Hfold : forall m,
             m <= fold_right (fun r' m' => Z.max (rowid r') m') m rest /\
             (In r rest ->
              rowid r
              <= fold_right (fun r' m' => Z.max (rowid r') m') m rest)).
  { intros m. induction rest as [ | r1 rest IH]; cbn [fold_right In].
    - split; [lia | contradiction].
    - destruct IH as [Hbase Hin]. split; [lia | ].
      intros [<- | Hrest]; [lia | ]. specialize (Hin Hrest). lia. }
  destruct (Hfold (rowid r0)) as [Hbase Hin].
  intros [<- | Hrest]; [exact Hbase | exact (Hin Hrest)].
Qed.

(** X12: under the script's schemas an INSERT whose column list does not
    name the key, neither as [id] in whatever case nor as [rowid], [oid]
    or [_rowid_], gets the next id, in any state of the database: one more
    than the largest id the table holds or has ever held, hence larger
    than the id of every row there; the [id] cell shows it and the table's
    counter moves on to it. *)
Theorem assigned_ids_grow (enforce : bool) (now : string)
  (db db' : database) (tname : string) (t : table) (cols : list string)
  (vals : list value) (r : row) :
  lookup_table db tname = Some t ->
  In (tbl_schema t) [users_schema; products_schema; orders_schema] ->
  names_rowid (tbl_schema t) cols = false ->
  insert_row enforce now db tname cols vals = Ok (db', r) ->
  rowid r = Z.max (max_rowid (tbl_rows t)) (tbl_seq t) + 1 /\
  (forall r0, In r0 (tbl_rows t) -> rowid r0 < rowid r) /\
  cell (tbl_schema t) "id" r = Some (VInt (rowid r)) /\
  exists t',
    find_table db' (tbl_name (tbl_schema t)) = Some t' /\
    tbl_rows t' = tbl_rows t ++ [r] /\
    tbl_seq t' = rowid r.
Proof.
  intros Hlookup Hwhich Hnot Hins.
  apply (insert_row_at _ _ _ _ _ _ _ _ t Hlookup) in Hins
    as (bound & _ & Hstore).
  pose proof Hstore as Hchecks.
  apply store_row_ok in Hchecks as (Hassign & _ & _ & _ & _ & Hdb').
  assert (Hshape : primary_key_index (tbl_schema t) = Some 0%nat /\
                   autoincrement (tbl_schema t) = true /\
                   column_index (tbl_columns (tbl_schema t)) "id"
                   = Some 0%nat).
  { cbn [In] in Hwhich.
    destruct Hwhich as [<- | [<- | [<- | []]]]; repeat split. }
  destruct Hshape as (Hkey & Hauto & Hindex).
  rewrite (key_binding_not_named _ cols bound Hnot) in Hassign.
  destruct (assign_rowid_auto _ _ _ _ _ Hassign (or_introl eq_refl))
    as (Hid & Hcells).
  unfold top_rowid in Hid. rewrite Hauto in Hid.
  split; [exact Hid | ]. split.
  - intros r0 Hin. pose proof (max_rowid_bounds _ _ Hin). lia.
  - split.
    + unfold cell. rewrite Hindex, Hcells. unfold with_key. rewrite Hkey.
      assert (Hsome : new_cells now (tbl_schema t) cols bound <> []).
      { unfold new_cells. cbn [In] in Hwhich.
        destruct Hwhich as [<- | [<- | [<- | []]]]; discriminate. }
      destruct (new_cells now (tbl_schema t) cols bound);
        [contradiction | reflexivity].
    + apply lookup_table_name in Hlookup.
      exists {| tbl_schema := tbl_schema t;
                tbl_rows := tbl_rows t ++ [r];
                tbl_seq := next_seq t (rowid r) |}.
      split; [ | split; [reflexivity | ]].
      * rewrite Hdb'.
        exact (find_replace_table db t
                 {| tbl_schema := tbl_schema t;
                    tbl_rows := tbl_rows t ++ [r];
                    tbl_seq := next_seq t (rowid r) |} Hlookup).
      * cbn [tbl_seq]. unfold next_seq. rewrite Hauto. lia.
Qed.

Lemma assigned_ids_grow_witness :
  (exists db' r t',
     insert_row false "2025-01-02 03:04:05" (fixture (run_time world0))
       "users" ["name"; "email"]
       [VText "Ivan"; VText "ivan@example.com"] = Ok (db', r) /\
     rowid r = 6 /\
     cell users_schema "id" r = Some (VInt 6) /\
     find_table db' "users" = Some t' /\
     tbl_seq t' = 6) /\
  names_rowid users_schema ["rowid"; "name"; "email"] = true /\
  exists db' r,
    insert_row false "2025-01-02 03:04:05" (fixture (run_time world0))
      "users" ["rowid"; "name"; "email"]
      [VInt 100; VText "Ivan"; VText "ivan@example.com"] = Ok (db', r) /\
    cell users_schema "id" r = Some (VInt 100).
Proof.
  pose (t := {| tbl_schema := users_schema;
                tbl_rows := stored 1 3 (Some (run_time world0)) users;
                tbl_seq := 5 |}).
  split; [ | split; [reflexivity | ]].
  - destruct (insert_row false "2025-01-02 03:04:05"
                (fixture (run_time world0)) "users" ["name"; "email"]
                [VText "Ivan"; VText "ivan@example.com"])
      as [[db' r] | e] eqn:Hins;
      [ | exfalso; vm_compute in Hins; discriminate Hins].
    destruct (assigned_ids_grow false "2025-01-02 03:04:05"
                (fixture (run_time world0)) db' "users" t
                ["name"; "email"] [VText "Ivan"; VText "ivan@example.com"] r
                (eq_refl : lookup_table (fixture (run_time world0)) "users"
                           = Some t)
                (or_introl eq_refl) eq_refl Hins)
      as (Hid & _ & Hcell & t' & Hfind' & _ & Hseq).
    exists db', r, t'.
    split; [reflexivity | ]. split; [exact Hid | ].
    split; [exact (eq_trans Hcell
                     (f_equal (fun z => Some (VInt z)) Hid)) | ].
    split; [exact Hfind' | ].
    exact (eq_trans Hseq Hid).
  - destruct (insert_row false "2025-01-02 03:04:05"
                (fixture (run_time world0)) "users"
                ["rowid"; "name"; "email"]
                [VInt 100; VText "Ivan"; VText "ivan@example.com"])
      as [[db' r] | e] eqn:Hins;
      [ | exfalso; vm_compute in Hins; discriminate Hins].
    exists db', r. split; [reflexivity | ].
    vm_compute in Hins. now injection Hins as _ <-.
Defined.
